(** * SST time-series script: a shallow embedding of [sst_timeseries_graph.py]

    The development follows the script top-down: Python exceptions and
    results, the fragment of [datetime] the script uses, the date axis
    ([generate_monthly_dates]), the point fetcher ([fetch_sst_data]), the
    series collector ([collect_timeseries_data]), the renderer's title
    ([create_graph]) and the entry point ([main]). *)

From Stdlib Require Import ZArith List String Ascii Bool Lia Sorted PrimFloat Uint63.
From Stdlib Require Import DecimalString DecimalZ.
From Equations.Prop Require Import Equations Logic.
Import ListNotations.

Set Warnings "-inexact-float,-register-all".

Local Open Scope string_scope.
Local Open Scope Z_scope.

(** ** Exceptions and results *)

(** The exception classes the script can meet.  [RequestException] stands for
    [requests.exceptions.RequestException] and its subclasses,
    [OtherException] for any further subclass of [Exception];
    [KeyboardInterrupt] and [OtherBaseException] (for [SystemExit],
    [GeneratorExit] and the like) are the classes outside [Exception]. *)
Inductive exn : Type :=
| ValueError (msg : string)
| OverflowError (msg : string)
| AttributeError (msg : string)
| RequestException (msg : string)
| OtherException (msg : string)
| KeyboardInterrupt
| OtherBaseException (msg : string).

Definition is_RequestException (e : exn) : bool :=
  match e with RequestException _ => true | _ => false end.

Definition is_Exception (e : exn) : bool :=
  match e with
  | KeyboardInterrupt | OtherBaseException _ => false
  | _ => true
  end.

Definition is_KeyboardInterrupt (e : exn) : bool :=
  match e with KeyboardInterrupt => true | _ => false end.

Inductive result (A : Type) : Type :=
| Ok (a : A)
| Raise (e : exn).
Arguments Ok {A} a.
Arguments Raise {A} e.

Definition rbind {A B} (r : result A) (k : A -> result B) : result B :=
  match r with Ok a => k a | Raise e => Raise e end.

(** A list comprehension whose body can raise: the first raise wins. *)
Fixpoint rmap {A B} (f : A -> result B) (l : list A) : result (list B) :=
  match l with
  | [] => Ok []
  | x :: xs => rbind (f x) (fun y => rbind (rmap f xs) (fun ys => Ok (y :: ys)))
  end.

(** ** The fragment of [datetime] used by the script *)

Module Datetime.

Definition MINYEAR : Z := 1.
Definition MAXYEAR : Z := 9999.

(** Every datetime the script builds has its time of day at midnight, so
    only the calendar fields are kept. *)
Record datetime : Type := mk { year : Z; month : Z; day : Z }.

Definition is_leap (y : Z) : bool :=
  (y mod 4 =? 0) && (negb (y mod 100 =? 0) || (y mod 400 =? 0)).

Definition days_in_month (y m : Z) : Z :=
  if m =? 2 then (if is_leap y then 29 else 28)
  else if (m =? 4) || (m =? 6) || (m =? 9) || (m =? 11) then 30
  else 31.

(** An integer written in decimal, as [%i] and [%d] write it. *)
Definition decimal (n : Z) : string := NilZero.string_of_int (Z.to_int n).

(** The constructor takes its arguments as C integers: a Python integer
    that does not fit raises [OverflowError] before any range check. *)
Definition c_int_error (n : Z) : option exn :=
  if negb ((- 9223372036854775808 <=? n) && (n <=? 9223372036854775807)) then
    Some (OverflowError "Python int too large to convert to C long")
  else if 2147483647 <? n then
    Some (OverflowError "signed integer is greater than maximum")
  else if n <? - 2147483648 then
    Some (OverflowError "signed integer is less than minimum")
  else None.

(** The range checks of the constructor, on arguments that fit. *)
Definition new_checked (y m d : Z) : result datetime :=
  if negb ((MINYEAR <=? y) && (y <=? MAXYEAR)) then
    Raise (ValueError ("year " ++ decimal y ++ " is out of range"))
  else if negb ((1 <=? m) && (m <=? 12)) then
    Raise (ValueError "month must be in 1..12")
  else if negb ((1 <=? d) && (d <=? days_in_month y m)) then
    Raise (ValueError "day is out of range for month")
  else Ok (mk y m d).

(** The constructor [datetime(year, month, day)]: [OverflowError] for an
    argument beyond a C integer, [ValueError] outside the supported
    range. *)
Definition new (y m d : Z) : result datetime :=
  match c_int_error y, c_int_error m, c_int_error d with
  | Some e, _, _ => Raise e
  | None, Some e, _ => Raise e
  | None, None, Some e => Raise e
  | None, None, None => new_checked y m d
  end.

(** [a <= b] and [a < b] on datetimes: lexicographic on the fields. *)
Definition leb (a b : datetime) : bool :=
  (year a <? year b)
  || ((year a =? year b)
      && ((month a <? month b)
          || ((month a =? month b) && (day a <=? day b)))).

Definition ltb (a b : datetime) : bool :=
  (year a <? year b)
  || ((year a =? year b)
      && ((month a <? month b)
          || ((month a =? month b) && (day a <? day b)))).

(** Decimal digits. *)
Definition digit (n : Z) : ascii := ascii_of_nat (48 + Z.to_nat (n mod 10)).

Definition digit_value (c : ascii) : option Z :=
  let n := Z.of_nat (nat_of_ascii c) in
  if (48 <=? n) && (n <=? 57) then Some (n - 48) else None.

(** Two decimal digits, as [%m] and [%d] write a month and a day. *)
Definition pad2 (n : Z) : string :=
  String (digit (n / 10)) (String (digit n) EmptyString).

(** [d.strftime('%Y-%m-%d')] as the interpreter's C library writes it:
    the year in decimal without padding (so [1-01-01] for the year 1), the
    month and the day padded to two digits. *)
Definition strftime (d : datetime) : string :=
  (decimal (year d) ++ "-" ++ pad2 (month d) ++ "-" ++ pad2 (day d))%string.

(** [datetime.strptime(s, '%Y-%m-%d')] on ASCII text.  The directive [%Y]
    takes exactly four digits; [%m] takes [1[0-2]], [0[1-9]] or [[1-9]];
    [%d] takes [3[01]], [[12]\d], [0[1-9]], [[1-9]] or a space and [[1-9]];
    the whole string has to match, and the fields go through the
    constructor. *)
Definition parse_year (s : string) : option (Z * string) :=
  match s with
  | String a (String b (String c (String d rest))) =>
      match digit_value a, digit_value b, digit_value c, digit_value d with
      | Some x, Some y, Some z, Some t =>
          Some (1000 * x + 100 * y + 10 * z + t, rest)
      | _, _, _, _ => None
      end
  | _ => None
  end.

Definition dash : ascii := "-"%char.

(** The month directive also consumes the dash that follows it. *)
Definition parse_month (s : string) : option (Z * string) :=
  match s with
  | String a (String b rest) =>
      match digit_value a, digit_value b, rest with
      | Some x, Some y, String c rest' =>
          if Ascii.eqb c dash && (((x =? 1) && (y <=? 2)) || ((x =? 0) && (1 <=? y)))
          then Some (10 * x + y, rest') else None
      | Some x, None, _ =>
          if Ascii.eqb b dash && (1 <=? x) then Some (x, rest) else None
      | _, _, _ => None
      end
  | _ => None
  end.

Definition parse_day (s : string) : option Z :=
  match s with
  | String a (String b EmptyString) =>
      match digit_value a, digit_value b with
      | Some x, Some y =>
          if ((x =? 3) && (y <=? 1)) || (x =? 1) || (x =? 2) || ((x =? 0) && (1 <=? y))
          then Some (10 * x + y) else None
      | None, Some y =>
          if Ascii.eqb a " "%char && (1 <=? y) then Some y else None
      | _, _ => None
      end
  | String a EmptyString =>
      match digit_value a with
      | Some x => if 1 <=? x then Some x else None
      | None => None
      end
  | _ => None
  end.

Definition strptime (s : string) : result datetime :=
  match parse_year s with
  | Some (y, String c r1) =>
      if Ascii.eqb c dash then
        match parse_month r1 with
        | Some (m, r2) =>
            match parse_day r2 with
            | Some d => new y m d
            | None => Raise (ValueError "time data does not match format")
            end
        | None => Raise (ValueError "time data does not match format")
        end
      else Raise (ValueError "time data does not match format")
  | _ => Raise (ValueError "time data does not match format")
  end.

End Datetime.
Import Datetime.

(** ** Date-axis generator *)

(** One turn of the loop body after the append: the first day of the
    following month.  The constructor call can raise. *)
Definition next_month (current_date : datetime) : result datetime :=
  if month current_date =? 12
  then Datetime.new (year current_date + 1) 1 1
  else Datetime.new (year current_date) (month current_date + 1) 1.

(** Months from [current_date] up to December of [end_date]'s year: the
    loop's variant.  It decreases at every turn, because a turn is taken
    only while [current_date <= end_date] and only goes on if the
    constructor accepted the following month. *)
Definition months_left (end_date current_date : datetime) : nat :=
  Z.to_nat (12 * (year end_date - year current_date) + 13 - month current_date).

(** [lia] is taught the quotients and remainders by constants that the
    digit and month arithmetic is made of. *)
Ltac Zify.zify_post_hook ::= Z.to_euclidean_division_equations.

(** Boolean tests on integers, turned into propositions for [lia]. *)
Ltac zbool_in H :=
  repeat (rewrite ?orb_true_iff, ?andb_true_iff, ?negb_true_iff, ?negb_false_iff,
            ?orb_false_iff, ?andb_false_iff, ?Z.ltb_lt, ?Z.leb_le, ?Z.eqb_eq,
            ?Z.ltb_ge, ?Z.leb_gt, ?Z.eqb_neq in H).

Ltac zbool :=
  repeat (rewrite ?orb_true_iff, ?andb_true_iff, ?negb_true_iff, ?negb_false_iff,
            ?orb_false_iff, ?andb_false_iff, ?Z.ltb_lt, ?Z.leb_le, ?Z.eqb_eq,
            ?Z.ltb_ge, ?Z.leb_gt, ?Z.eqb_neq).

(** The [while current_date <= end_date] loop of [generate_monthly_dates]. *)
Equations month_loop (end_date current_date : datetime) (dates : list string)
  : result (list string) by wf (months_left end_date current_date) lt :=
  month_loop end_date current_date dates
    with inspect (Datetime.leb current_date end_date) := {
    | exist _ false _ => Ok dates
    | exist _ true Hle with inspect (next_month current_date) := {
      | exist _ (Raise e) _ => Raise e
      | exist _ (Ok nxt) Hn =>
          month_loop end_date nxt (dates ++ [strftime current_date])%list } }.
Next Obligation.
  unfold Datetime.leb in Hle. unfold next_month, Datetime.new in Hn.
  unfold months_left, MINYEAR, MAXYEAR in *.
  destruct current_date as [y m d], end_date as [ey em ed], nxt as [ny nm nd];
    cbn [year month day] in *.
  zbool_in Hle.
  destruct (m =? 12) eqn:Hm; zbool_in Hm;
    repeat match type of Hn with
           | match c_int_error ?n with _ => _ end = _ =>
               destruct (c_int_error n); [discriminate Hn|]
           end;
    unfold new_checked, MINYEAR, MAXYEAR in Hn;
    repeat match type of Hn with
           | (if negb ?c then _ else _) = _ =>
               let E := fresh "E" in
               destruct c eqn:E; cbn [negb] in Hn; [zbool_in E|discriminate Hn]
           end;
    injection Hn as <- <- <-; lia.
Qed.

Definition generate_monthly_dates (start_year end_year : Z) : result (list string) :=
  rbind (Datetime.new start_year 1 1) (fun current_date =>
  rbind (Datetime.new end_year 12 31) (fun end_date =>
  month_loop end_date current_date [])).

(** ** Python values decoded from a JSON payload *)

Inductive value : Type :=
| PyNone
| PyBool (b : bool)
| PyInt (n : Z)
| PyFloat (x : float)
| PyStr (s : string)
| PyList (items : list value)
| PyDict (items : list (string * value)).

Fixpoint lookup (key : string) (items : list (string * value)) : option value :=
  match items with
  | [] => None
  | (k, v) :: rest => if String.eqb k key then Some v else lookup key rest
  end.

(** [v.get(key, default)]: only a dict has the method. *)
Definition py_get (v : value) (key : string) (default : value) : result value :=
  match v with
  | PyDict items =>
      Ok (match lookup key items with Some x => x | None => default end)
  | _ => Raise (AttributeError "object has no attribute 'get'")
  end.

(** [v == s] for a string literal [s]. *)
Definition py_eq_str (v : value) (s : string) : bool :=
  match v with PyStr t => String.eqb t s | _ => false end.

(** [v is not None] *)
Definition is_not_None (v : value) : bool :=
  match v with PyNone => false | _ => true end.

(** ** The outside world: transport, clock, logger, figure *)

Record request : Type := mk_request {
  req_url : string;
  req_lat : float;
  req_lon : float;
  req_data_type : string;
  req_date : string;
  req_data_source : string;
  req_zoom_level : Z;
  req_max_points : Z;
  req_radius : float;
  req_api_key : string;
  req_content_type : string;
  req_timeout : Z }.

(** A response: its status code and what [response.json()] gives, a decoded
    value or an exception. *)
Record response : Type := mk_response {
  status_code : Z;
  json : result value }.

Inductive level : Type := INFO | WARNING | ERROR.

(** Log records keep the fixed text of each message as a constructor and the
    interpolated values as its arguments. *)
Inductive message : Type :=
| MsgNonSuccess (date data_type : string) (detail : value)
| MsgHttpFailed (date data_type : string) (code : Z)
| MsgRequestException (date data_type : string) (e : exn)
| MsgUnexpected (date data_type : string) (e : exn)
| MsgCollecting (total : nat) (start_year end_year : Z)
| MsgProgress (done total : nat)
| MsgComplete (n_temperatures n_anomalies : nat)
| MsgSaved (output_file : string)
| MsgCompleted
| MsgInterrupted
| MsgError (e : exn).

(** What [create_graph] hands to the plotting library. *)
Record chart : Type := mk_chart {
  chart_title : string;
  temp_dates : list datetime;
  temp_values : list value;
  anom_dates : list datetime;
  anom_values : list value;
  chart_file : string }.

Inductive event : Type :=
| EvGet (r : request)
| EvSleep (seconds : float)
| EvLog (lvl : level) (msg : message)
| EvSavefig (c : chart)
| EvShow.

(** The state threaded through the script: the number of transport calls
    made so far and the chronological trace of effects. *)
Record world : Type := mk_world {
  n_calls : nat;
  trace : list event }.

Definition initial_world : world := mk_world 0 [].

Definition emit (e : event) (w : world) : world :=
  mk_world (n_calls w) (trace w ++ [e]).

(** ** A state and exception monad *)

Definition M (A : Type) : Type := world -> result A * world.

Definition ret {A} (a : A) : M A := fun w => (Ok a, w).

Definition raise {A} (e : exn) : M A := fun w => (Raise e, w).

Definition bind {A B} (m : M A) (k : A -> M B) : M B :=
  fun w => match m w with
           | (Ok a, w') => k a w'
           | (Raise e, w') => (Raise e, w')
           end.

Definition lift {A} (r : result A) : M A := fun w => (r, w).

(** [try: body except ...]: the handler table answers [None] for an
    exception no clause catches. *)
Definition try_except {A} (body : M A) (handlers : exn -> option (M A)) : M A :=
  fun w => match body w with
           | (Ok a, w') => (Ok a, w')
           | (Raise e, w') =>
               match handlers e with
               | Some h => h w'
               | None => (Raise e, w')
               end
           end.

Declare Scope monad_scope.
Delimit Scope monad_scope with monad.
Notation "x <- m ;; k" := (bind m (fun x => k))
  (at level 61, m at next level, right associativity) : monad_scope.
Notation "m ;; k" := (bind m (fun _ => k))
  (at level 61, right associativity) : monad_scope.
Local Open Scope monad_scope.

Definition log (lvl : level) (msg : message) : M unit :=
  fun w => (Ok tt, emit (EvLog lvl msg) w).

(** ** Configuration constants *)

Definition API_BASE_URL : string := "https://api.deepearth.digital".
Definition API_ENDPOINT : string := "/api/sst/point".
Definition API_KEY : string :=
  "sst_83fd13d1b4f67420ebd3f29423cbb94bf96afcfe737b61ac47d84f7b29c6ac3f".
Definition DEFAULT_LAT : float := 38.13%float.
Definition DEFAULT_LON : float := 4.13%float.

Section Script.

(** The transport answers the [n]-th call (counted from 0) to
    [requests.get]: a response or an exception. *)
Variable transport : nat -> request -> result response.

(** The exception with which [time.sleep] refuses its argument, if it
    does; [time_sleep_error] below is the interpreter's own answer. *)
Variable sleep_error : float -> option exn.

(** [str] of a float, as the title's f-string interpolates it. *)
Variable float_str : float -> string.

(** The plotting library: the exception, if any, raised while the figure
    with these contents is drawn (from [plt.subplots] to
    [fig.tight_layout], the refusal by [plot] of coordinate lists of
    different lengths among them), by [plt.savefig] (an unsupported format,
    a path that cannot be written) and by [plt.show]. *)
Variable draw_error : chart -> option exn.
Variable savefig_error : chart -> option exn.
Variable show_error : chart -> option exn.

Definition requests_get (r : request) : M response :=
  fun w => (transport (n_calls w) r,
            mk_world (S (n_calls w)) (trace w ++ [EvGet r])).

Definition time_sleep (seconds : float) : M unit :=
  fun w => match sleep_error seconds with
           | None => (Ok tt, emit (EvSleep seconds) w)
           | Some e => (Raise e, w)
           end.

(** ** Point fetcher *)

Definition build_request (lat lon : float) (data_type date api_key : string)
    (base_url endpoint : string) : request :=
  {| req_url := (base_url ++ endpoint)%string;
     req_lat := lat;
     req_lon := lon;
     req_data_type := data_type;
     req_date := date;
     req_data_source := "timeseries-graph";
     req_zoom_level := 5;
     req_max_points := 4000;
     req_radius := 2.0%float;
     req_api_key := api_key;
     req_content_type := "application/json";
     req_timeout := 30 |}.

(** The body of the [try] block.  [Some v] is a [return v] from inside the
    block, [None] means control falls through to the final [return None]. *)
Definition fetch_body (data_type date : string) (r : request) : M (option value) :=
  response <- requests_get r ;;
  if status_code response =? 200 then
    data <- lift (json response) ;;
    status <- lift (py_get data "status" PyNone) ;;
    if py_eq_str status "success" then
      data_obj <- lift (py_get data "data" (PyDict [])) ;;
      if String.eqb data_type "mean" then
        v <- lift (py_get data_obj "temperature" PyNone) ;;
        ret (Some v)
      else
        v <- lift (py_get data_obj "anomaly" PyNone) ;;
        ret (Some v)
    else
      detail <- lift (py_get data "detail" (PyStr "Unknown error")) ;;
      log WARNING (MsgNonSuccess date data_type detail) ;;
      ret None
  else
    log WARNING (MsgHttpFailed date data_type (status_code response)) ;;
    ret None.

(** The two [except] clauses, in order. *)
Definition fetch_handlers (data_type date : string) (e : exn) : option (M (option value)) :=
  if is_RequestException e then
    Some (log WARNING (MsgRequestException date data_type e) ;; ret None)
  else if is_Exception e then
    Some (log WARNING (MsgUnexpected date data_type e) ;; ret None)
  else None.

Definition fetch_sst_data (lat lon : float) (data_type date api_key : string)
    (base_url endpoint : string) : M value :=
  returned <- try_except
                (fetch_body data_type date
                   (build_request lat lon data_type date api_key base_url endpoint))
                (fetch_handlers data_type date) ;;
  match returned with
  | Some v => ret v
  | None => ret PyNone
  end.

(** ** Series collector *)

Definition count_present (l : list value) : nat :=
  List.length (filter is_not_None l).

(** The [for i, date_str in enumerate(dates_str)] loop, from index [i] on. *)
Fixpoint collect_loop (lat lon : float) (api_key : string) (delay : float)
    (total i : nat) (dates_str : list string) (temperatures anomalies : list value)
  : M (list value * list value) :=
  match dates_str with
  | [] => ret (temperatures, anomalies)
  | date_str :: rest =>
      (if (((i + 1) mod 12 =? 0) || (i =? 0))%nat
       then log INFO (MsgProgress (i + 1) total)
       else ret tt) ;;
      temp <- fetch_sst_data lat lon "mean" date_str api_key API_BASE_URL API_ENDPOINT ;;
      time_sleep delay ;;
      anom <- fetch_sst_data lat lon "anomaly" date_str api_key API_BASE_URL API_ENDPOINT ;;
      time_sleep delay ;;
      collect_loop lat lon api_key delay total (S i) rest
        (temperatures ++ [temp])%list (anomalies ++ [anom])%list
  end.

Definition collect_timeseries_data (lat lon : float) (start_year end_year : Z)
    (api_key : string) (delay : float)
  : M (list datetime * list value * list value) :=
  dates_str <- lift (generate_monthly_dates start_year end_year) ;;
  dates <- lift (rmap strptime dates_str) ;;
  let total := List.length dates_str in
  log INFO (MsgCollecting total start_year end_year) ;;
  series <- collect_loop lat lon api_key delay total 0 dates_str [] [] ;;
  let '(temperatures, anomalies) := series in
  log INFO (MsgComplete (count_present temperatures) (count_present anomalies)) ;;
  ret (dates, temperatures, anomalies).

(** ** Chart renderer *)

(** [[d for d, v in zip(dates, values) if v is not None]] *)
Definition present_dates (dates : list datetime) (values : list value) : list datetime :=
  map fst (filter (fun dv => is_not_None (snd dv)) (combine dates values)).

Definition graph_title (lat lon : float) : string :=
  ("SST Time Series: Temperature and Anomaly" ++ String "010"%char "Location: "
     ++ float_str lat ++ "°N, " ++ float_str lon ++ "°E (1981-2025)")%string.

(** A call into the plotting library: it raises what the library raises,
    and is recorded in the trace when it returns. *)
Definition plt_call (error : option exn) (done : list event) : M unit :=
  fun w => match error with
           | Some e => (Raise e, w)
           | None => (Ok tt, mk_world (n_calls w) (trace w ++ done))
           end.

(** The plotting calls are kept as the data they receive. *)
Definition create_graph (dates : list datetime) (temperatures anomalies : list value)
    (lat lon : float) (output_file : string) : M unit :=
  let t_dates := present_dates dates temperatures in
  let t_values := filter is_not_None temperatures in
  let a_dates := present_dates dates anomalies in
  let a_values := filter is_not_None anomalies in
  let c := mk_chart (graph_title lat lon) t_dates t_values a_dates a_values
             output_file in
  plt_call (draw_error c) [] ;;
  plt_call (savefig_error c) [EvSavefig c] ;;
  log INFO (MsgSaved output_file) ;;
  plt_call (show_error c) [EvShow].

(** ** Entry point *)

(** The parsed command line. *)
Record args : Type := mk_args {
  arg_lat : float;
  arg_lon : float;
  arg_start_year : Z;
  arg_end_year : Z;
  arg_output : string;
  arg_api_key : string;
  arg_delay : float }.

Definition default_args : args :=
  mk_args DEFAULT_LAT DEFAULT_LON 1981 2025 "sst_timeseries.png" API_KEY 0.1%float.

(** The two [except] clauses, in order; an exception of another class
    outside [Exception] leaves [main]. *)
Definition main_handlers (e : exn) : option (M Z) :=
  if is_KeyboardInterrupt e then Some (log INFO MsgInterrupted ;; ret 1)
  else if is_Exception e then Some (log ERROR (MsgError e) ;; ret 1)
  else None.

(** [main] after [parser.parse_args]. *)
Definition main (a : args) : M Z :=
  try_except
    (series <- collect_timeseries_data (arg_lat a) (arg_lon a) (arg_start_year a)
                 (arg_end_year a) (arg_api_key a) (arg_delay a) ;;
     let '(dates, temperatures, anomalies) := series in
     create_graph dates temperatures anomalies (arg_lat a) (arg_lon a) (arg_output a) ;;
     log INFO MsgCompleted ;;
     ret 0)
    main_handlers.

End Script.

(** ** Vocabulary for the statements *)

(** What a single fetch does, read off the transport's answer: a value
    returned from inside the [try] block, one warning followed by the final
    [return None], or an exception that no clause catches.
    [fetch_sst_data_run] below shows that the fetcher computes exactly this. *)
Inductive outcome : Type :=
| Returned (v : value)
| Warned (msg : message)
| Escaped (e : exn).

Definition handled (data_type date : string) (e : exn) : outcome :=
  if is_RequestException e then Warned (MsgRequestException date data_type e)
  else if is_Exception e then Warned (MsgUnexpected date data_type e)
  else Escaped e.

Definition metric_field (data_type : string) : string :=
  if String.eqb data_type "mean" then "temperature" else "anomaly".

Definition fetch_outcome (data_type date : string) (answer : result response) : outcome :=
  match answer with
  | Raise e => handled data_type date e
  | Ok resp =>
      if status_code resp =? 200 then
        match json resp with
        | Raise e => handled data_type date e
        | Ok data =>
            match py_get data "status" PyNone with
            | Raise e => handled data_type date e
            | Ok status =>
                if py_eq_str status "success" then
                  match py_get data "data" (PyDict []) with
                  | Raise e => handled data_type date e
                  | Ok data_obj =>
                      match py_get data_obj (metric_field data_type) PyNone with
                      | Raise e => handled data_type date e
                      | Ok v => Returned v
                      end
                  end
                else
                  match py_get data "detail" (PyStr "Unknown error") with
                  | Raise e => handled data_type date e
                  | Ok detail => Warned (MsgNonSuccess date data_type detail)
                  end
            end
        end
      else Warned (MsgHttpFailed date data_type (status_code resp))
  end.

Definition outcome_result (o : outcome) : result value :=
  match o with
  | Returned v => Ok v
  | Warned _ => Ok PyNone
  | Escaped e => Raise e
  end.

Definition outcome_value (o : outcome) : value :=
  match o with Returned v => v | _ => PyNone end.

Definition outcome_logs (o : outcome) : list event :=
  match o with Warned msg => [EvLog WARNING msg] | _ => [] end.

(** The date and metric a warning is about. *)
Definition message_subject (msg : message) : option (string * string) :=
  match msg with
  | MsgNonSuccess date data_type _
  | MsgHttpFailed date data_type _
  | MsgRequestException date data_type _
  | MsgUnexpected date data_type _ => Some (date, data_type)
  | _ => None
  end.

(** An answer that carries no exception from outside [Exception]. *)
Definition catchable (answer : result response) : bool :=
  match answer with
  | Raise e => is_Exception e
  | Ok resp => match json resp with Raise e => is_Exception e | Ok _ => true end
  end.

(** The failure kinds of a fetch. *)
Inductive failure : result response -> Prop :=
| transport_status code payload :
    code <> 200 -> failure (Ok (mk_response code payload))
| application_status data status :
    py_get data "status" PyNone = Ok status ->
    py_eq_str status "success" = false ->
    failure (Ok (mk_response 200 (Ok data)))
| transport_exception e :
    is_Exception e = true -> failure (Raise e)
| undecodable_payload e :
    is_Exception e = true -> failure (Ok (mk_response 200 (Raise e)))
| payload_not_object data e :
    py_get data "status" PyNone = Raise e ->
    failure (Ok (mk_response 200 (Ok data)))
| data_not_object data status data_obj field e :
    py_get data "status" PyNone = Ok status ->
    py_eq_str status "success" = true ->
    py_get data "data" (PyDict []) = Ok data_obj ->
    py_get data_obj field PyNone = Raise e ->
    failure (Ok (mk_response 200 (Ok data))).

(** The [k]-th month counted from January of [start_year]. *)
Definition nth_month (start_year : Z) (k : nat) : datetime :=
  Datetime.mk (start_year + Z.of_nat k / 12) (Z.of_nat k mod 12 + 1) 1.

Definition month_axis (start_year : Z) (n : nat) : list datetime :=
  map (nth_month start_year) (seq 0 n).

(** [a < b] on datetimes, as a proposition. *)
Definition date_lt (a b : datetime) : Prop := Datetime.ltb a b = true.

Definition calendar_month (d : datetime) : Z * Z := (year d, month d).

(** [s < t] on strings, as Python compares them. *)
Definition string_lt (s t : string) : Prop := String.ltb s t = true.

(** When the loop reports progress: at the first sample and at every twelfth. *)
Definition progress_due (i : nat) : bool :=
  (((i + 1) mod 12 =? 0) || (i =? 0))%nat.

(** Four decimal digits: the way a year from 1000 to 9999 is written. *)
Definition pad4 (n : Z) : string :=
  String (digit (n / 1000)) (String (digit (n / 100)) (pad2 n)).

(** A date the constructor accepts. *)
Definition valid_date (d : datetime) : Prop :=
  1 <= year d <= 9999 /\ 1 <= month d <= 12
  /\ 1 <= day d <= days_in_month (year d) (month d).

(** Everything in the trace except log records. *)
Definition is_effect (e : event) : bool :=
  match e with EvLog _ _ => false | _ => true end.

Definition effects (t : list event) : list event := filter is_effect t.

Section Series.

Variable transport : nat -> request -> result response.
Variables lat lon : float.
Variable api_key : string.
Variable delay : float.

Definition point_request (data_type date : string) : request :=
  build_request lat lon data_type date api_key API_BASE_URL API_ENDPOINT.

(** The values the collector stores for one metric when its first fetch is
    the transport's call number [c]: every date costs two calls. *)
Fixpoint fetched (data_type : string) (c : nat) (axis : list string) : list value :=
  match axis with
  | [] => []
  | date :: rest =>
      outcome_value
        (fetch_outcome data_type date (transport c (point_request data_type date)))
      :: fetched data_type (S (S c)) rest
  end.

(** The requests and pauses of a whole collection, in order. *)
Definition schedule (axis : list string) : list event :=
  flat_map (fun date =>
              [EvGet (point_request "mean" date); EvSleep delay;
               EvGet (point_request "anomaly" date); EvSleep delay]) axis.

End Series.

(** The simulated transport of the end-to-end scenario: call number [i]
    succeeds with temperature [20.0 + 0.01 * i] and anomaly [0.5]. *)
Definition sim_temperature (i : nat) : float :=
  (20.0 + 0.01 * PrimFloat.of_uint63 (Uint63.of_Z (Z.of_nat i)))%float.

Definition sim_transport (i : nat) (r : request) : result response :=
  Ok (mk_response 200
        (Ok (PyDict [("status", PyStr "success");
                     ("data", PyDict [("temperature", PyFloat (sim_temperature i));
                                      ("anomaly", PyFloat 0.5%float)])]))).

(** A transport whose every answer is HTTP 500. *)
Definition failing_transport (i : nat) (r : request) : result response :=
  Ok (mk_response 500 (Raise (RequestException "Expecting value"))).

(** [a < b] on stored values, as Python compares two floats. *)
Definition value_ltb (a b : value) : bool :=
  match a, b with
  | PyFloat x, PyFloat y => PrimFloat.ltb x y
  | _, _ => false
  end.

Fixpoint strictly_increasing (l : list value) : bool :=
  match l with
  | [] => true
  | x :: rest => forallb (value_ltb x) rest && strictly_increasing rest
  end.

(** The charts written by [savefig], in order. *)
Definition saved_charts (t : list event) : list chart :=
  flat_map (fun e => match e with EvSavefig c => [c] | _ => [] end) t.

(** The payload of the fetcher's success scenario. *)
Definition sample_payload : value :=
  PyDict [("status", PyStr "success");
          ("data", PyDict [("temperature", PyFloat 17.5%float)])].

Definition sample_transport (i : nat) (r : request) : result response :=
  Ok (mk_response 200 (Ok sample_payload)).

(** [main(['--start-year', '2000', '--end-year', '2001'])] after parsing:
    the defaults with the two years replaced. *)
Definition args_2000_2001 : args :=
  {| arg_lat := arg_lat default_args;
     arg_lon := arg_lon default_args;
     arg_start_year := 2000;
     arg_end_year := 2001;
     arg_output := arg_output default_args;
     arg_api_key := arg_api_key default_args;
     arg_delay := arg_delay default_args |}.

(** [time.sleep] on a float, as the interpreter (CPython 3.11 on a 64-bit
    Linux) answers: the length is turned into nanoseconds, a NaN and a
    length beyond 64 bits are refused by the conversion, a negative one by
    [sleep] itself.  The conversion rounds away from zero, which changes
    none of the comparisons below, and a length of exactly [2^63]
    nanoseconds wraps to a negative one. *)
Definition time_sleep_error (seconds : float) : option exn :=
  if PrimFloat.is_nan seconds then
    Some (ValueError "Invalid value NaN (not a number)")
  else
    let ns := (seconds * 1e9)%float in
    if negb ((-9223372036854775808 <=? ns) && (ns <=? 9223372036854775808))%float
    then Some (OverflowError "timestamp too large to convert to C _PyTime_t")
    else if ((ns <? 0) || (ns =? 9223372036854775808))%float
    then Some (ValueError "sleep length must be non-negative")
    else None.

(** A plotting library that raises nothing. *)
Definition plt_silent (c : chart) : option exn := None.

(** The chart [create_graph] builds from its arguments. *)
Definition chart_of (float_str : float -> string) (dates : list datetime)
    (temperatures anomalies : list value) (lat lon : float) (output_file : string)
  : chart :=
  mk_chart (graph_title float_str lat lon)
    (present_dates dates temperatures) (filter is_not_None temperatures)
    (present_dates dates anomalies) (filter is_not_None anomalies) output_file.

(** The record the entry point logs for an exception it catches. *)
Definition exit_record (e : exn) : option event :=
  if is_KeyboardInterrupt e then Some (EvLog INFO MsgInterrupted)
  else if is_Exception e then Some (EvLog ERROR (MsgError e))
  else None.

(** ** Vocabulary for the further properties *)

(** The years on which the generator returns. *)
Definition axis_years (start_year end_year : Z) : Prop :=
  1 <= start_year <= 9999 /\ 1 <= end_year <= 9999
  /\ (end_year < start_year \/ end_year <= 9998).

(** The exception with which the constructor refuses a year. *)
Definition year_error (y : Z) : option exn :=
  match c_int_error y with
  | Some e => Some e
  | None =>
      if (MINYEAR <=? y) && (y <=? MAXYEAR) then None
      else Some (ValueError ("year " ++ decimal y ++ " is out of range"))
  end.

(** The exception of a refused range: that of the start year, else that of
    the end year, else that of the year after the last one. *)
Definition axis_error (start_year end_year : Z) : exn :=
  match year_error start_year, year_error end_year with
  | Some e, _ => e
  | None, Some e => e
  | None, None => ValueError "year 10000 is out of range"
  end.

Definition is_digit (c : ascii) : bool :=
  match digit_value c with Some _ => true | None => false end.

(** The shape [YYYY-MM-01]: ten characters, digits around two dashes, the
    day being [01]. *)
Definition iso_first_of_month (s : string) : bool :=
  match s with
  | String y1 (String y2 (String y3 (String y4 (String d1
      (String m1 (String m2 (String d2 (String "0" (String "1" EmptyString))))))))) =>
      is_digit y1 && is_digit y2 && is_digit y3 && is_digit y4
      && Ascii.eqb d1 dash && is_digit m1 && is_digit m2 && Ascii.eqb d2 dash
  | _ => false
  end.

(** The transport calls and the pauses recorded in a trace. *)
Definition requests_made (t : list event) : nat :=
  List.length (filter (fun e => match e with EvGet _ => true | _ => false end) t).

Definition pauses_made (t : list event) : nat :=
  List.length (filter (fun e => match e with EvSleep _ => true | _ => false end) t).

(** The sample numbers of the progress records of a trace, in order. *)
Definition progress_records (t : list event) : list nat :=
  flat_map (fun e => match e with
                     | EvLog INFO (MsgProgress done _) => [done]
                     | _ => []
                     end) t.

(** A run of [main] for a year the constructor refuses. *)
Definition args_year_zero : args :=
  {| arg_lat := arg_lat default_args;
     arg_lon := arg_lon default_args;
     arg_start_year := 0;
     arg_end_year := 2025;
     arg_output := arg_output default_args;
     arg_api_key := arg_api_key default_args;
     arg_delay := arg_delay default_args |}.

(** * Facts about the embedding *)

(** ** Dates *)

Lemma new_Ok_inv y m d dt :
  Datetime.new y m d = Ok dt ->
  dt = Datetime.mk y m d /\ 1 <= y <= 9999 /\ 1 <= m <= 12 /\ 1 <= d <= days_in_month y m.
Proof.
  unfold Datetime.new, new_checked, MINYEAR, MAXYEAR.
  destruct (c_int_error y); [discriminate|].
  destruct (c_int_error m); [discriminate|].
  destruct (c_int_error d); [discriminate|].
  destruct (negb ((1 <=? y) && (y <=? 9999))) eqn:Hy; [discriminate|].
  destruct (negb ((1 <=? m) && (m <=? 12))) eqn:Hm; [discriminate|].
  destruct (negb ((1 <=? d) && (d <=? days_in_month y m))) eqn:Hd; [discriminate|].
  intros [= <-]. zbool_in Hy. zbool_in Hm. zbool_in Hd. auto.
Qed.

Lemma c_int_error_None n :
  - 2147483648 <= n <= 2147483647 -> c_int_error n = None.
Proof.
  intros Hn. unfold c_int_error.
  replace ((- 9223372036854775808 <=? n) && (n <=? 9223372036854775807)) with true
    by (symmetry; zbool; lia).
  replace (2147483647 <? n) with false by (symmetry; zbool; lia).
  replace (n <? - 2147483648) with false by (symmetry; zbool; lia).
  reflexivity.
Qed.

Lemma days_in_month_upper y m : days_in_month y m <= 31.
Proof.
  unfold days_in_month.
  destruct (m =? 2); [destruct (is_leap y); lia|].
  destruct (_ || _); lia.
Qed.

Lemma new_valid y m d :
  1 <= y <= 9999 -> 1 <= m <= 12 -> 1 <= d <= days_in_month y m ->
  Datetime.new y m d = Ok (Datetime.mk y m d).
Proof.
  intros Hy Hm Hd. pose proof (days_in_month_upper y m).
  unfold Datetime.new. rewrite !c_int_error_None by lia.
  unfold new_checked, MINYEAR, MAXYEAR.
  replace ((1 <=? y) && (y <=? 9999)) with true by (symmetry; zbool; lia).
  replace ((1 <=? m) && (m <=? 12)) with true by (symmetry; zbool; lia).
  replace ((1 <=? d) && (d <=? days_in_month y m)) with true by (symmetry; zbool; lia).
  reflexivity.
Qed.

Lemma days_in_month_lower y m : 28 <= days_in_month y m.
Proof.
  unfold days_in_month.
  destruct (m =? 2); [destruct (is_leap y); lia|].
  destruct (_ || _); lia.
Qed.

Lemma new_first_of_month y m :
  1 <= y <= 9999 -> 1 <= m <= 12 -> Datetime.new y m 1 = Ok (Datetime.mk y m 1).
Proof.
  intros Hy Hm. apply new_valid; try assumption.
  pose proof (days_in_month_lower y m). lia.
Qed.

Lemma month_loop_eq end_date current_date dates :
  month_loop end_date current_date dates =
  if Datetime.leb current_date end_date then
    match next_month current_date with
    | Ok nxt => month_loop end_date nxt (dates ++ [strftime current_date])
    | Raise e => Raise e
    end
  else Ok dates.
Proof.
  funelim (month_loop end_date current_date dates);
    repeat match goal with
           | E : Datetime.leb _ _ = _ |- _ => rewrite E
           | E : next_month _ = _ |- _ => rewrite E
           end; reflexivity.
Qed.

Lemma nth_month_leb sy ey k :
  sy <= ey -> Z.of_nat k < 12 * (ey - sy + 1) ->
  Datetime.leb (nth_month sy k) (Datetime.mk ey 12 31) = true.
Proof.
  intros Hs Hk. unfold Datetime.leb, nth_month; cbn [year month day].
  zbool. lia.
Qed.

Lemma nth_month_next sy ey k :
  1 <= sy -> ey <= 9998 -> Z.of_nat k < 12 * (ey - sy + 1) ->
  next_month (nth_month sy k) = Ok (nth_month sy (S k)).
Proof.
  intros Hs He Hk. unfold next_month, nth_month; cbn [year month day].
  rewrite Nat2Z.inj_succ.
  destruct (Z.of_nat k mod 12 + 1 =? 12) eqn:Hm; zbool_in Hm;
    (rewrite new_first_of_month; [f_equal; f_equal; lia | lia | lia]).
Qed.

Lemma month_loop_run sy ey n : forall k dates,
  1 <= sy -> sy <= ey -> ey <= 9998 ->
  Z.of_nat (k + n) = 12 * (ey - sy + 1) ->
  month_loop (Datetime.mk ey 12 31) (nth_month sy k) dates =
  Ok (dates ++ map (fun i => strftime (nth_month sy i)) (seq k n))%list.
Proof.
  induction n as [|n IH]; intros k dates Hs Hse He Hk; rewrite month_loop_eq.
  - replace (Datetime.leb _ _) with false.
    + cbn. now rewrite app_nil_r.
    + symmetry. unfold Datetime.leb, nth_month; cbn [year month day].
      zbool. lia.
  - rewrite (nth_month_leb sy ey k) by lia.
    rewrite (nth_month_next sy ey k) by lia.
    rewrite IH by lia. cbn [seq map]. now rewrite <- app_assoc.
Qed.

(** Closed form of the axis on the years for which no constructor call
    raises. *)
Lemma generate_monthly_dates_closed sy ey :
  1 <= sy -> sy <= ey -> ey <= 9998 ->
  generate_monthly_dates sy ey =
  Ok (map strftime (month_axis sy (Z.to_nat (12 * (ey - sy + 1))))).
Proof.
  intros Hs Hse He. unfold generate_monthly_dates.
  rewrite !new_valid by (cbn; lia). cbn [rbind].
  replace (Datetime.mk sy 1 1) with (nth_month sy 0)
    by (unfold nth_month; cbn; f_equal; lia).
  rewrite (month_loop_run sy ey (Z.to_nat (12 * (ey - sy + 1)))) by lia.
  unfold month_axis. now rewrite map_map.
Qed.

(** *** Formatting and parsing a date are inverse from the year 1000 on *)

Lemma digit_value_digit n : digit_value (digit n) = Some (n mod 10).
Proof.
  unfold digit_value, digit.
  rewrite nat_ascii_embedding by lia.
  replace (Z.of_nat (48 + Z.to_nat (n mod 10))) with (48 + n mod 10) by lia.
  replace ((48 <=? 48 + n mod 10) && (48 + n mod 10 <=? 57)) with true
    by (symmetry; zbool; lia).
  f_equal. lia.
Qed.

Lemma parse_year_pad4 y rest :
  0 <= y <= 9999 -> parse_year (pad4 y ++ rest)%string = Some (y, rest).
Proof.
  intros Hy. unfold pad4, pad2. cbn [append parse_year].
  rewrite !digit_value_digit. do 2 f_equal. lia.
Qed.

Lemma parse_month_pad2 m rest :
  1 <= m <= 12 ->
  parse_month (pad2 m ++ String dash rest)%string = Some (m, rest).
Proof.
  intros Hm. unfold pad2. cbn [append parse_month].
  rewrite !digit_value_digit. rewrite Ascii.eqb_refl.
  replace (((m / 10) mod 10 =? 1) && (m mod 10 <=? 2)
           || ((m / 10) mod 10 =? 0) && (1 <=? m mod 10)) with true
    by (symmetry; zbool; lia).
  cbn [andb]. do 2 f_equal. lia.
Qed.

Lemma parse_day_pad2 d : 1 <= d <= 31 -> parse_day (pad2 d) = Some d.
Proof.
  intros Hd. unfold pad2, parse_day.
  rewrite !digit_value_digit.
  replace (((d / 10) mod 10 =? 3) && (d mod 10 <=? 1) || ((d / 10) mod 10 =? 1)
           || ((d / 10) mod 10 =? 2) || ((d / 10) mod 10 =? 0) && (1 <=? d mod 10))
    with true by (symmetry; zbool; lia).
  f_equal. lia.
Qed.

(** From the year 1000 on, the year is written with four digits. *)
Lemma decimal_pad4 y : 1000 <= y <= 9999 -> decimal y = pad4 y.
Proof.
  intros Hy.
  assert (H : forallb (fun k => String.eqb (decimal (1000 + Z.of_nat k))
                                  (pad4 (1000 + Z.of_nat k)))
                (seq 0 (Z.to_nat 9000)) = true) by (vm_compute; reflexivity).
  rewrite forallb_forall in H.
  specialize (H (Z.to_nat (y - 1000))).
  rewrite Z2Nat.id in H by lia.
  replace (1000 + (y - 1000)) with y in H by lia.
  apply String.eqb_eq, H, in_seq. lia.
Qed.

(** Below, it is written with fewer. *)
Lemma decimal_short y : 0 <= y <= 999 -> (String.length (decimal y) <= 3)%nat.
Proof.
  intros Hy.
  assert (H : forallb (fun k => (String.length (decimal (Z.of_nat k)) <=? 3)%nat)
                (seq 0 1000) = true) by (vm_compute; reflexivity).
  rewrite forallb_forall in H.
  specialize (H (Z.to_nat y)). rewrite Z2Nat.id in H by lia.
  apply Nat.leb_le, H, in_seq. lia.
Qed.

Lemma decimal_injective a b : decimal a = decimal b -> a = b.
Proof.
  unfold decimal. intros E.
  assert (Hn : forall z, Z.to_int z <> Decimal.Pos Decimal.Nil
                         /\ Z.to_int z <> Decimal.Neg Decimal.Nil).
  { intros [|p|p]; cbn; split; try discriminate; intros [= H];
      now apply DecimalPos.Unsigned.to_uint_nonnil in H. }
  apply (f_equal NilZero.int_of_string) in E.
  rewrite !NilZero.isi in E by apply Hn.
  injection E as E. apply (f_equal Z.of_int) in E.
  now rewrite !DecimalZ.of_to in E.
Qed.

Lemma string_length_append s t :
  String.length (s ++ t) = (String.length s + String.length t)%nat.
Proof. induction s as [|c s IH]; cbn; [reflexivity|now rewrite IH]. Qed.

(** Two texts that end in parts of the same length agree part by part. *)
Lemma append_tail_injective p q s t :
  String.length s = String.length t -> (p ++ s = q ++ t)%string -> p = q /\ s = t.
Proof.
  revert q. induction p as [|c p IH]; intros [|c' q] Hl E; cbn in E.
  - now split.
  - apply (f_equal String.length) in E. cbn in E.
    rewrite string_length_append in E. lia.
  - apply (f_equal String.length) in E. cbn in E.
    rewrite string_length_append in E. lia.
  - injection E as -> E. destruct (IH q Hl E) as [-> ->]. now split.
Qed.

(** A text of fewer than four characters followed by a dash is no year. *)
Lemma parse_year_short s rest :
  (String.length s <= 3)%nat -> parse_year (s ++ String dash rest)%string = None.
Proof.
  destruct s as [|a [|b [|c [|d s]]]]; cbn [String.length append]; intros Hl;
    try lia; unfold parse_year;
    repeat match goal with
           | |- context [match ?r with EmptyString => _ | String _ _ => _ end] =>
               is_var r; destruct r
           end; try reflexivity;
    change (digit_value dash) with (@None Z);
    repeat match goal with
           | |- context [digit_value ?x] => destruct (digit_value x)
           end; reflexivity.
Qed.

Lemma strptime_strftime y m d :
  1000 <= y <= 9999 -> 1 <= m <= 12 -> 1 <= d <= days_in_month y m ->
  strptime (strftime (Datetime.mk y m d)) = Ok (Datetime.mk y m d).
Proof.
  intros Hy Hm Hd. unfold strptime, strftime; cbn [year month day].
  rewrite decimal_pad4 by lia.
  rewrite parse_year_pad4 by lia.
  change ("-" ++ pad2 m ++ "-" ++ pad2 d)%string
    with (String dash (pad2 m ++ String dash (pad2 d))%string).
  cbv iota beta. rewrite Ascii.eqb_refl.
  rewrite parse_month_pad2 by lia.
  pose proof (days_in_month_upper y m).
  rewrite parse_day_pad2 by lia.
  apply new_valid; lia.
Qed.

Lemma new_Ok_valid y m d dt : Datetime.new y m d = Ok dt -> valid_date dt.
Proof.
  intros H. apply new_Ok_inv in H. destruct H as (-> & Hy & Hm & Hd).
  now repeat split.
Qed.

Lemma strptime_strftime_valid d :
  valid_date d -> 1000 <= year d -> strptime (strftime d) = Ok d.
Proof.
  destruct d as [y m d]. intros (Hy & Hm & Hd) Hk. cbn [year month day] in *.
  apply strptime_strftime; lia.
Qed.

Lemma rmap_strptime_strftime ds :
  Forall valid_date ds -> Forall (fun d => 1000 <= year d) ds ->
  rmap strptime (map strftime ds) = Ok ds.
Proof.
  induction 1 as [|d ds Hd _ IH]; [reflexivity|].
  intros Hk. inversion Hk; subst.
  cbn [map rmap]. rewrite strptime_strftime_valid by assumption.
  cbn [rbind]. now rewrite IH.
Qed.

(** The text of a date before the year 1000 is refused by the parser. *)
Lemma strptime_strftime_short d :
  0 <= year d <= 999 -> exists msg, strptime (strftime d) = Raise (ValueError msg).
Proof.
  intros Hy. unfold strptime, strftime.
  change ("-" ++ pad2 (month d) ++ "-" ++ pad2 (day d))%string
    with (String dash (pad2 (month d) ++ "-" ++ pad2 (day d))%string).
  rewrite parse_year_short by now apply decimal_short.
  eexists. reflexivity.
Qed.

Lemma next_month_valid current_date nxt :
  next_month current_date = Ok nxt -> valid_date nxt.
Proof.
  unfold next_month.
  destruct (month current_date =? 12); apply new_Ok_valid.
Qed.

Lemma next_month_year current_date nxt :
  next_month current_date = Ok nxt -> year current_date <= year nxt.
Proof.
  unfold next_month.
  destruct (month current_date =? 12); intros H; apply new_Ok_inv in H;
    destruct H as (-> & _); cbn [year]; lia.
Qed.

(** Whatever the loop returns extends [dates] by formatted valid dates, none
    of a year before the current one. *)
Lemma month_loop_valid end_date current_date dates :
  forall l, valid_date current_date ->
  month_loop end_date current_date dates = Ok l ->
  exists ds, l = (dates ++ map strftime ds)%list /\ Forall valid_date ds
             /\ Forall (fun d => year current_date <= year d) ds.
Proof.
  funelim (month_loop end_date current_date dates); intros l Hv Hl.
  - exists []. cbn. rewrite app_nil_r. split; [congruence|]. split; constructor.
  - match goal with
    | IH : forall l, valid_date nxt -> _ |- _ =>
        destruct (IH l) as (ds & -> & Hds & Hys)
    end.
    + eapply next_month_valid; eassumption.
    + congruence.
    + exists (current_date :: ds). rewrite <- app_assoc. split; [reflexivity|].
      split; [now constructor|].
      constructor; [lia|].
      match goal with
      | E : next_month _ = Ok _ |- _ => pose proof (next_month_year _ _ E)
      end.
      eapply Forall_impl; [|exact Hys]. cbn beta. intros d Hd. lia.
  - congruence.
Qed.

Lemma generate_monthly_dates_valid sy ey axis :
  generate_monthly_dates sy ey = Ok axis ->
  exists ds, axis = map strftime ds /\ Forall valid_date ds
             /\ Forall (fun d => sy <= year d) ds.
Proof.
  unfold generate_monthly_dates.
  destruct (Datetime.new sy 1 1) as [current_date|] eqn:E1; [|discriminate].
  destruct (Datetime.new ey 12 31) as [end_date|] eqn:E2; [|discriminate].
  cbn [rbind]. intros H.
  apply month_loop_valid in H; [|eapply new_Ok_valid; exact E1].
  apply new_Ok_inv in E1. destruct E1 as (-> & _). exact H.
Qed.

(** From the year 1000 on, the collector's parse of the axis gives back the
    dates that were formatted. *)
Lemma generate_monthly_dates_parses_back sy ey axis :
  generate_monthly_dates sy ey = Ok axis -> 1000 <= sy \/ axis = [] ->
  exists ds, axis = map strftime ds /\ rmap strptime axis = Ok ds.
Proof.
  intros Hg [Hs| ->]; [|now exists []].
  destruct (generate_monthly_dates_valid _ _ _ Hg) as (ds & -> & Hds & Hys).
  exists ds. split; [reflexivity|].
  apply rmap_strptime_strftime; [exact Hds|].
  eapply Forall_impl; [|exact Hys]. cbn beta. intros d Hd. lia.
Qed.

(** *** Shape of the axis *)

Lemma sorted_map_seq {A} (R : A -> A -> Prop) (f : nat -> A) n : forall k,
  (forall i j, (k <= i < j)%nat -> (j < k + n)%nat -> R (f i) (f j)) ->
  StronglySorted R (map f (seq k n)).
Proof.
  induction n as [|n IH]; intros k HR; cbn [seq map]; constructor.
  - apply IH. intros i j Hij Hj. apply HR; lia.
  - apply Forall_forall. intros x Hx.
    apply in_map_iff in Hx. destruct Hx as (j & <- & Hj).
    apply in_seq in Hj. apply HR; lia.
Qed.

Lemma NoDup_map_seq {A} (f : nat -> A) n : forall k,
  (forall i j, (k <= i < j)%nat -> (j < k + n)%nat -> f i <> f j) ->
  NoDup (map f (seq k n)).
Proof.
  induction n as [|n IH]; intros k Hf; cbn [seq map]; constructor.
  - intros Hx. apply in_map_iff in Hx. destruct Hx as (j & Hj & Hin).
    apply in_seq in Hin. apply (Hf k j); [lia|lia|congruence].
  - apply IH. intros i j Hij Hj. apply Hf; lia.
Qed.

Lemma nth_month_lt sy i j :
  (i < j)%nat -> date_lt (nth_month sy i) (nth_month sy j).
Proof.
  intros Hij. unfold date_lt, Datetime.ltb, nth_month; cbn [year month day].
  zbool. lia.
Qed.

Lemma nth_month_valid sy ey k :
  1 <= sy -> ey <= 9999 -> Z.of_nat k < 12 * (ey - sy + 1) ->
  valid_date (nth_month sy k).
Proof.
  intros Hs He Hk. unfold valid_date, nth_month; cbn [year month day].
  pose proof (days_in_month_lower (sy + Z.of_nat k / 12) (Z.of_nat k mod 12 + 1)).
  lia.
Qed.

Lemma month_axis_length sy n : List.length (month_axis sy n) = n.
Proof. unfold month_axis. now rewrite length_map, length_seq. Qed.

Lemma month_axis_valid sy ey n :
  1 <= sy -> ey <= 9999 -> Z.of_nat n <= 12 * (ey - sy + 1) ->
  Forall valid_date (month_axis sy n).
Proof.
  intros Hs He Hn. apply Forall_forall. intros d Hd.
  apply in_map_iff in Hd. destruct Hd as (k & <- & Hk). apply in_seq in Hk.
  apply (nth_month_valid sy ey); lia.
Qed.

Lemma month_axis_sorted sy n : StronglySorted date_lt (month_axis sy n).
Proof.
  apply sorted_map_seq. intros i j Hij _. apply nth_month_lt. lia.
Qed.

Lemma month_axis_first_days sy n : Forall (fun d => day d = 1) (month_axis sy n).
Proof.
  apply Forall_forall. intros d Hd.
  apply in_map_iff in Hd. now destruct Hd as (k & <- & _).
Qed.

Lemma month_axis_months_distinct sy n :
  NoDup (map calendar_month (month_axis sy n)).
Proof.
  unfold month_axis. rewrite map_map. apply NoDup_map_seq.
  intros i j Hij _. unfold calendar_month, nth_month; cbn [year month].
  intros [= Hy Hm]. lia.
Qed.

Lemma pad2_injective m n : 0 <= m <= 99 -> 0 <= n <= 99 -> pad2 m = pad2 n -> m = n.
Proof.
  intros Hm Hn E. unfold pad2 in E. injection E as E1 E2.
  apply (f_equal digit_value) in E1, E2.
  rewrite !digit_value_digit in E1, E2.
  injection E1 as E1. injection E2 as E2. lia.
Qed.

Lemma strftime_injective a b :
  valid_date a -> valid_date b -> strftime a = strftime b -> a = b.
Proof.
  destruct a as [y m d], b as [y' m' d'].
  intros (Hy & Hm & Hd) (Hy' & Hm' & Hd') E. cbn [year month day] in *.
  pose proof (days_in_month_upper y m). pose proof (days_in_month_upper y' m').
  unfold strftime in E; cbn [year month day] in E.
  apply append_tail_injective in E; [|reflexivity].
  destruct E as [Ey E]. apply decimal_injective in Ey.
  change (String dash (pad2 m ++ String dash (pad2 d))
          = String dash (pad2 m' ++ String dash (pad2 d'))) in E.
  assert (E2 : (pad2 m ++ String dash (pad2 d))%string
               = (pad2 m' ++ String dash (pad2 d'))%string) by congruence.
  apply append_tail_injective in E2; [|reflexivity].
  destruct E2 as [Em E2]. apply pad2_injective in Em; [|lia|lia].
  assert (E3 : pad2 d = pad2 d') by congruence.
  apply pad2_injective in E3; [|lia|lia].
  congruence.
Qed.

Lemma month_axis_strings_distinct sy ey n :
  1 <= sy -> ey <= 9999 -> Z.of_nat n <= 12 * (ey - sy + 1) ->
  NoDup (map strftime (month_axis sy n)).
Proof.
  intros Hs He Hn. unfold month_axis. rewrite map_map. apply NoDup_map_seq.
  intros i j Hij Hj E.
  apply strftime_injective in E; try (apply (nth_month_valid sy ey); lia).
  pose proof (nth_month_lt sy i j ltac:(lia)) as Hlt. rewrite E in Hlt.
  unfold date_lt, Datetime.ltb in Hlt. zbool_in Hlt. lia.
Qed.

(** *** The formatted dates are ordered as strings too *)

Lemma digit_compare a b :
  Ascii.compare (digit a) (digit b) = (a mod 10 ?= b mod 10).
Proof.
  unfold Ascii.compare, digit.
  assert (H : forall n, 0 <= n < 10 ->
            N_of_ascii (ascii_of_nat (48 + Z.to_nat n)) = Z.to_N (48 + n)).
  { intros n Hn. unfold ascii_of_nat. rewrite N_ascii_embedding by lia. lia. }
  rewrite !H by lia.
  rewrite Z2N.inj_compare by lia.
  apply Z.add_compare_mono_l.
Qed.

(** Comparing two formatted dates character by character is comparing
    year, month and day in turn. *)
Lemma strftime_compare a b :
  valid_date a -> valid_date b -> 1000 <= year a -> 1000 <= year b ->
  String.compare (strftime a) (strftime b)
  = match year a ?= year b with
    | Eq => match month a ?= month b with
            | Eq => day a ?= day b
            | c => c
            end
    | c => c
    end.
Proof.
  destruct a as [y m d], b as [y' m' d'].
  intros (Hy & Hm & Hd) (Hy' & Hm' & Hd') Hk Hk'. cbn [year month day] in *.
  pose proof (days_in_month_upper y m). pose proof (days_in_month_upper y' m').
  unfold strftime; cbn [year month day]. rewrite !decimal_pad4 by lia.
  unfold pad4, pad2; cbn [append String.compare].
  rewrite !digit_compare.
  change (Ascii.compare "-" "-") with Eq. cbv iota.
  repeat match goal with
         | |- context [?p ?= ?q] => destruct (Z.compare_spec p q)
         end; try reflexivity; exfalso; lia.
Qed.

Lemma strftime_ltb a b :
  valid_date a -> valid_date b -> 1000 <= year a -> 1000 <= year b ->
  date_lt a b -> string_lt (strftime a) (strftime b).
Proof.
  intros Ha Hb Hk Hk' Hlt. unfold string_lt, String.ltb.
  rewrite strftime_compare by assumption.
  unfold date_lt, Datetime.ltb in Hlt. zbool_in Hlt.
  destruct Hlt as [Hy|(Hy & [Hm|(Hm & Hd)])].
  - apply Z.compare_lt_iff in Hy. now rewrite Hy.
  - apply Z.compare_eq_iff in Hy. apply Z.compare_lt_iff in Hm.
    now rewrite Hy, Hm.
  - apply Z.compare_eq_iff in Hy, Hm. apply Z.compare_lt_iff in Hd.
    now rewrite Hy, Hm, Hd.
Qed.

Lemma month_axis_four_digits sy n :
  1000 <= sy -> Forall (fun d => 1000 <= year d) (month_axis sy n).
Proof.
  intros Hs. apply Forall_forall. intros d Hd.
  apply in_map_iff in Hd. destruct Hd as (k & <- & _).
  unfold nth_month; cbn [year]. lia.
Qed.

Lemma month_axis_strings_sorted sy ey n :
  1000 <= sy -> ey <= 9999 -> Z.of_nat n <= 12 * (ey - sy + 1) ->
  StronglySorted string_lt (map strftime (month_axis sy n)).
Proof.
  intros Hs He Hn. unfold month_axis. rewrite map_map.
  apply sorted_map_seq. intros i j Hij Hj.
  apply strftime_ltb; try (apply (nth_month_valid sy ey); lia);
    try (unfold nth_month; cbn [year]; lia).
  apply nth_month_lt. lia.
Qed.

Lemma month_axis_covers sy ey y m :
  sy <= y <= ey -> 1 <= m <= 12 ->
  In (Datetime.mk y m 1) (month_axis sy (Z.to_nat (12 * (ey - sy + 1)))).
Proof.
  intros Hy Hm. apply in_map_iff.
  exists (Z.to_nat (12 * (y - sy) + (m - 1))). split.
  - unfold nth_month. rewrite Z2Nat.id by lia. f_equal; lia.
  - apply in_seq. lia.
Qed.

(** ** The point fetcher, one call at a time *)

Section FetchFacts.

Variable transport : nat -> request -> result response.

(** Case analysis along the branches of the fetcher. *)
Ltac fetch_cases :=
  repeat match goal with
         | |- context [py_get ?d ?k ?v] => destruct (py_get d k v)
         | |- context [py_eq_str ?a ?b] => destruct (py_eq_str a b)
         | |- context [String.eqb ?a ?b] => destruct (String.eqb a b)
         | |- context [Z.eqb ?a ?b] => destruct (Z.eqb a b)
         | |- context [is_RequestException ?e] => destruct (is_RequestException e)
         | |- context [is_Exception ?e] => destruct (is_Exception e)
         end.

(** The fetcher makes exactly one transport call, and what it returns and
    logs is [fetch_outcome] of the answer to that call. *)
Lemma fetch_sst_data_run lat lon data_type date api_key base_url endpoint w :
  let r := build_request lat lon data_type date api_key base_url endpoint in
  let o := fetch_outcome data_type date (transport (n_calls w) r) in
  fetch_sst_data transport lat lon data_type date api_key base_url endpoint w
  = (outcome_result o,
     mk_world (S (n_calls w)) (trace w ++ EvGet r :: outcome_logs o)).
Proof.
  intros r o. subst o.
  unfold fetch_sst_data, fetch_body, fetch_outcome, fetch_handlers, handled,
    metric_field, try_except, bind, requests_get, lift, log, ret, emit.
  fold r. generalize (transport (n_calls w) r). intros answer.
  destruct (String.eqb data_type "mean");
    destruct answer as [[code [data|e]]|e]; cbn [status_code json];
    fetch_cases; cbn; rewrite <- ?app_assoc; reflexivity.
Qed.

End FetchFacts.

Lemma py_get_raises v key default e :
  py_get v key default = Raise e -> is_Exception e = true.
Proof. destruct v; cbn; intros [= <-]; reflexivity || discriminate. Qed.

Lemma handled_catchable data_type date e :
  is_Exception e = true ->
  outcome_result (handled data_type date e)
  = Ok (outcome_value (handled data_type date e)).
Proof.
  intros He. unfold handled. rewrite He.
  now destruct (is_RequestException e).
Qed.

(** A catchable answer never makes the fetcher raise. *)
Lemma catchable_result data_type date answer :
  catchable answer = true ->
  outcome_result (fetch_outcome data_type date answer)
  = Ok (outcome_value (fetch_outcome data_type date answer)).
Proof.
  unfold catchable, fetch_outcome.
  destruct answer as [[code [data|e]]|e]; cbn [status_code json]; intros Hc;
    try (destruct (code =? 200); [|reflexivity]);
    try (now apply handled_catchable).
  repeat match goal with
         | |- context [py_get ?d ?k ?v] =>
             let E := fresh "E" in
             destruct (py_get d k v) eqn:E;
             [|apply handled_catchable; eapply py_get_raises; exact E]
         | |- context [py_eq_str ?a ?b] => destruct (py_eq_str a b)
         end; reflexivity.
Qed.

Lemma outcome_result_value o v : outcome_result o = Ok v -> v = outcome_value o.
Proof. destruct o; cbn; congruence. Qed.

Lemma effects_app a b : effects (a ++ b) = (effects a ++ effects b)%list.
Proof. apply filter_app. Qed.

Lemma effects_outcome_logs o : effects (outcome_logs o) = [].
Proof. now destruct o. Qed.

(** ** The collector's loop *)

Section CollectFacts.

Variable transport : nat -> request -> result response.
Variable sleep_error : float -> option exn.
Variables lat lon : float.
Variable api_key : string.
Variable delay : float.

Let request_for := point_request lat lon api_key.
Let loop := collect_loop transport sleep_error lat lon api_key delay.

(** One turn of the loop, with the world written out. *)
Lemma collect_loop_cons total i date rest temperatures anomalies w :
  loop total i (date :: rest) temperatures anomalies w =
  let t0 := if progress_due i
            then (trace w ++ [EvLog INFO (MsgProgress (i + 1) total)])%list
            else trace w in
  let o1 := fetch_outcome "mean" date
              (transport (n_calls w) (request_for "mean" date)) in
  let t1 := (t0 ++ EvGet (request_for "mean" date) :: outcome_logs o1)%list in
  match outcome_result o1 with
  | Raise e => (Raise e, mk_world (S (n_calls w)) t1)
  | Ok temp =>
      match sleep_error delay with
      | Some e => (Raise e, mk_world (S (n_calls w)) t1)
      | None =>
        let o2 := fetch_outcome "anomaly" date
                    (transport (S (n_calls w)) (request_for "anomaly" date)) in
        let t2 := ((t1 ++ [EvSleep delay])
                     ++ EvGet (request_for "anomaly" date) :: outcome_logs o2)%list in
        match outcome_result o2 with
        | Raise e => (Raise e, mk_world (S (S (n_calls w))) t2)
        | Ok anom =>
            match sleep_error delay with
            | Some e => (Raise e, mk_world (S (S (n_calls w))) t2)
            | None =>
              loop total (S i) rest (temperatures ++ [temp])%list
                (anomalies ++ [anom])%list
                (mk_world (S (S (n_calls w))) (t2 ++ [EvSleep delay]))
            end
        end
      end
  end.
Proof.
  subst loop request_for. cbn [collect_loop]. fold (progress_due i).
  unfold bind at 1.
  destruct (progress_due i); unfold log, ret, emit; cbn [n_calls trace];
    unfold bind at 1; rewrite fetch_sst_data_run; cbn [n_calls trace];
    unfold point_request;
    (destruct (outcome_result _); [|reflexivity]);
    unfold bind at 1, time_sleep;
    (destruct (sleep_error delay); [reflexivity|]);
    unfold emit; cbn [n_calls trace];
    unfold bind at 1; rewrite fetch_sst_data_run; cbn [n_calls trace];
    (destruct (outcome_result _); [|reflexivity]);
    unfold bind at 1, emit; cbn [n_calls trace]; reflexivity.
Qed.

Lemma collect_loop_Ok total : forall axis i temperatures anomalies w ts an w',
  loop total i axis temperatures anomalies w = (Ok (ts, an), w') ->
  ts = (temperatures ++ fetched transport lat lon api_key "mean" (n_calls w) axis)%list
  /\ an = (anomalies
           ++ fetched transport lat lon api_key "anomaly" (S (n_calls w)) axis)%list
  /\ n_calls w' = (n_calls w + 2 * List.length axis)%nat
  /\ effects (trace w')
     = (effects (trace w) ++ schedule lat lon api_key delay axis)%list.
Proof.
  induction axis as [|date rest IH]; intros i temperatures anomalies w ts an w' H.
  - cbn in H. injection H as <- <- <-. cbn. rewrite !app_nil_r.
    repeat split. lia.
  - rewrite collect_loop_cons in H. cbv zeta in H.
    destruct (outcome_result _) as [temp|] eqn:E1 in H; [|discriminate].
    destruct (sleep_error delay); [discriminate|].
    destruct (outcome_result _) as [anom|] eqn:E2 in H; [|discriminate].
    apply outcome_result_value in E1, E2. subst temp anom.
    apply IH in H. cbn [n_calls trace] in H.
    destruct H as (-> & -> & -> & ->).
    cbn [fetched schedule flat_map List.length].
    rewrite <- !app_assoc. repeat split; [lia|].
    rewrite !effects_app. cbn [app].
    change (effects (?e :: ?l)) with (if is_effect e then e :: effects l else effects l).
    cbn [is_effect]. rewrite !effects_outcome_logs.
    change (effects []) with (@nil event).
    replace (effects (if progress_due i
                      then trace w ++ [EvLog INFO (MsgProgress (i + 1) total)]
                      else trace w)%list) with (effects (trace w))
      by (destruct (progress_due i); [rewrite effects_app; cbn; now rewrite app_nil_r
                                     | reflexivity]).
    rewrite <- !app_assoc. reflexivity.
Qed.

Hypothesis sleep_ok : sleep_error delay = None.
Hypothesis transport_ok : forall n r, catchable (transport n r) = true.

Lemma collect_loop_total total : forall axis i temperatures anomalies w,
  exists w',
    loop total i axis temperatures anomalies w
    = (Ok ((temperatures
              ++ fetched transport lat lon api_key "mean" (n_calls w) axis)%list,
           (anomalies
              ++ fetched transport lat lon api_key "anomaly" (S (n_calls w)) axis)%list),
       w').
Proof.
  induction axis as [|date rest IH]; intros i temperatures anomalies w.
  - exists w. cbn. now rewrite !app_nil_r.
  - rewrite collect_loop_cons. cbv zeta.
    rewrite !catchable_result by apply transport_ok.
    rewrite sleep_ok.
    match goal with
    | |- exists w', loop _ _ _ ?t ?a ?w0 = _ =>
        destruct (IH (S i) t a w0) as [w' Hw']
    end.
    exists w'. rewrite Hw'. cbn [n_calls fetched]. now rewrite <- !app_assoc.
Qed.

Lemma collect_timeseries_data_total sy ey axis w :
  generate_monthly_dates sy ey = Ok axis -> 1000 <= sy \/ axis = [] ->
  exists dates w',
    rmap strptime axis = Ok dates
    /\ collect_timeseries_data transport sleep_error lat lon sy ey api_key delay w
       = (Ok (dates,
              fetched transport lat lon api_key "mean" (n_calls w) axis,
              fetched transport lat lon api_key "anomaly" (S (n_calls w)) axis),
          w').
Proof.
  intros Hg Hs.
  destruct (generate_monthly_dates_parses_back _ _ _ Hg Hs) as (ds & Ha & Hp).
  unfold collect_timeseries_data. rewrite Hg.
  unfold bind at 1, lift at 1. unfold bind at 1, lift at 1. rewrite Hp.
  unfold bind at 1, log at 1.
  match goal with
  | |- context [bind (collect_loop _ _ _ _ _ _ ?total ?i ?axis ?t ?a)] =>
      unfold bind at 1;
      destruct (collect_loop_total total axis i t a
                  (emit (EvLog INFO (MsgCollecting total sy ey)) w)) as [w1 Hw1]
  end.
  subst loop. rewrite Hw1. cbn [app n_calls emit].
  eexists ds, _. split; [reflexivity|]. reflexivity.
Qed.

End CollectFacts.

Section CollectInversion.

Variable transport : nat -> request -> result response.
Variable sleep_error : float -> option exn.
Variables lat lon : float.
Variable api_key : string.
Variable delay : float.

(** What a returning collection has done, whatever the transport and the
    clock are. *)
Lemma collect_timeseries_data_Ok sy ey w dates temperatures anomalies w' :
  collect_timeseries_data transport sleep_error lat lon sy ey api_key delay w
  = (Ok (dates, temperatures, anomalies), w') ->
  exists axis,
    generate_monthly_dates sy ey = Ok axis
    /\ rmap strptime axis = Ok dates
    /\ temperatures = fetched transport lat lon api_key "mean" (n_calls w) axis
    /\ anomalies = fetched transport lat lon api_key "anomaly" (S (n_calls w)) axis
    /\ n_calls w' = (n_calls w + 2 * List.length axis)%nat
    /\ effects (trace w')
       = (effects (trace w) ++ schedule lat lon api_key delay axis)%list.
Proof.
  unfold collect_timeseries_data.
  unfold bind at 1, lift at 1.
  destruct (generate_monthly_dates sy ey) as [axis|]; [|discriminate].
  unfold bind at 1, lift at 1.
  destruct (rmap strptime axis) as [ds|] eqn:Hp; [|discriminate].
  unfold bind at 1, log at 1. unfold bind at 1.
  destruct (collect_loop _ _ _ _ _ _ _ _ _ _ _ _) as [[[ts an]|e] w1] eqn:EL;
    [|discriminate].
  unfold bind, log, ret. intros [= <- <- <- <-].
  apply collect_loop_Ok in EL. cbn [n_calls trace emit app] in EL.
  destruct EL as (-> & -> & Hn & EL).
  exists axis. split; [reflexivity|]. split; [exact Hp|].
  do 2 (split; [reflexivity|]).
  cbn [n_calls trace emit]. split; [exact Hn|].
  rewrite effects_app, EL, effects_app. cbn. now rewrite !app_nil_r.
Qed.

End CollectInversion.

(** ** Auxiliary facts *)

Lemma rmap_length {A B} (f : A -> result B) l l' :
  rmap f l = Ok l' -> List.length l' = List.length l.
Proof.
  revert l'. induction l as [|x xs IH]; intros l'; cbn [rmap].
  - now intros [= <-].
  - destruct (f x); [|discriminate]. cbn [rbind].
    destruct (rmap f xs) as [ys|]; [|discriminate]. cbn [rbind].
    intros [= <-]. cbn. f_equal. now apply IH.
Qed.

Lemma fetched_length transport lat lon api_key data_type axis : forall c,
  List.length (fetched transport lat lon api_key data_type c axis) = List.length axis.
Proof.
  induction axis as [|d rest IH]; intros c; cbn; [reflexivity|].
  now rewrite IH.
Qed.

Lemma handled_warns data_type date e :
  is_Exception e = true ->
  exists msg, handled data_type date e = Warned msg
              /\ message_subject msg = Some (date, data_type).
Proof.
  intros He. unfold handled. rewrite He.
  destruct (is_RequestException e); eexists; split; reflexivity.
Qed.

Lemma py_get_raises_any v key default e key' default' :
  py_get v key default = Raise e -> py_get v key' default' = Raise e.
Proof. destruct v; cbn; now intros [= <-]. Qed.

Lemma py_get_Ok_dict v key default x :
  py_get v key default = Ok x -> exists items, v = PyDict items.
Proof. destruct v; cbn; try discriminate. intros _. now eexists. Qed.

(** Every failure kind makes the outcome a single warning about the
    requested date and metric. *)
Lemma failure_outcome data_type date answer :
  failure answer ->
  exists msg, fetch_outcome data_type date answer = Warned msg
              /\ message_subject msg = Some (date, data_type).
Proof.
  intros [code payload Hc|data status Hs Hne|e He|e He|data e Hs
          |data status data_obj field e Hs Heq Hd Hf];
    unfold fetch_outcome; cbn [status_code json].
  - replace (code =? 200) with false by (symmetry; zbool; lia).
    eexists; split; reflexivity.
  - change (200 =? 200) with true. cbv iota. rewrite Hs, Hne.
    destruct (py_get_Ok_dict _ _ _ _ Hs) as [items ->]. cbn [py_get].
    eexists; split; reflexivity.
  - now apply handled_warns.
  - change (200 =? 200) with true. cbv iota. now apply handled_warns.
  - change (200 =? 200) with true. cbv iota. rewrite Hs.
    apply handled_warns. eapply py_get_raises; exact Hs.
  - change (200 =? 200) with true. cbv iota. rewrite Hs, Heq, Hd.
    rewrite (py_get_raises_any _ _ _ _ (metric_field data_type) PyNone Hf).
    apply handled_warns. eapply py_get_raises; exact Hf.
Qed.

Lemma fetched_sim_mean lat lon api_key axis : forall c,
  fetched sim_transport lat lon api_key "mean" c axis
  = map (fun k => PyFloat (sim_temperature (c + 2 * k))) (seq 0 (List.length axis)).
Proof.
  induction axis as [|d rest IH]; intros c; [reflexivity|].
  cbn [fetched List.length seq map]. f_equal.
  - replace (c + 2 * 0)%nat with c by lia. reflexivity.
  - rewrite IH, <- seq_shift, map_map. apply map_ext.
    intros k. do 2 f_equal. lia.
Qed.

Lemma fetched_sim_anomaly lat lon api_key axis : forall c,
  fetched sim_transport lat lon api_key "anomaly" c axis
  = repeat (PyFloat 0.5%float) (List.length axis).
Proof.
  induction axis as [|d rest IH]; intros c; [reflexivity|].
  cbn [fetched List.length repeat]. f_equal. apply IH.
Qed.

(** * Properties stated by the specification *)

(** ** Date-axis generator *)

(** C1, as stated, fails outside the years [datetime] supports: for
    [start_year = end_year = 0] the first constructor call raises and no
    list is returned. *)
Lemma generate_monthly_dates_year_zero :
  0 <= 0
  /\ generate_monthly_dates 0 0 = Raise (ValueError "year 0 is out of range")
  /\ ~ (exists dates, generate_monthly_dates 0 0 = Ok dates
                      /\ Z.of_nat (List.length dates) = 12 * (0 - 0 + 1)).
Proof.
  split; [lia|]. split; [reflexivity|].
  intros (dates & H & _). discriminate H.
Qed.

(** When [end_year] is the last supported year, the loop builds the whole
    axis and then raises on the month after December 9999. *)
Example generate_monthly_dates_last_year :
  generate_monthly_dates 9999 9999
  = Raise (ValueError "year 10000 is out of range").
Proof. reflexivity. Qed.

(** C1, amended: for [1 <= start_year <= end_year <= 9998] the generator
    returns exactly [12 * (end_year - start_year + 1)] date strings; they
    are the formatted dates of a strictly increasing list of first days of
    month, no calendar month and no string occurs twice, every month of
    every year of the range is present, and for [start_year = end_year] the
    list is January to December of that year.  From [start_year = 1000] on,
    where the year is written with four digits, the strings are strictly
    increasing as strings too and every string parses back to its date. *)
Theorem generate_monthly_dates_axis start_year end_year :
  1 <= start_year -> start_year <= end_year -> end_year <= 9998 ->
  exists axis,
    generate_monthly_dates start_year end_year = Ok (map strftime axis)
    /\ Z.of_nat (List.length (map strftime axis)) = 12 * (end_year - start_year + 1)
    /\ StronglySorted date_lt axis
    /\ Forall (fun d => day d = 1) axis
    /\ NoDup (map calendar_month axis)
    /\ NoDup (map strftime axis)
    /\ (forall y m, start_year <= y <= end_year -> 1 <= m <= 12 ->
                    In (Datetime.mk y m 1) axis)
    /\ (start_year = end_year ->
        axis = map (fun m => Datetime.mk start_year m 1)
                   [1; 2; 3; 4; 5; 6; 7; 8; 9; 10; 11; 12])
    /\ (1000 <= start_year ->
        rmap strptime (map strftime axis) = Ok axis
        /\ StronglySorted string_lt (map strftime axis)).
Proof.
  intros Hs Hse He.
  set (n := Z.to_nat (12 * (end_year - start_year + 1))).
  exists (month_axis start_year n).
  assert (Hv : Forall valid_date (month_axis start_year n))
    by (apply (month_axis_valid start_year end_year); lia).
  split; [now apply generate_monthly_dates_closed|].
  split; [rewrite length_map, month_axis_length; lia|].
  split; [apply month_axis_sorted|].
  split; [apply month_axis_first_days|].
  split; [apply month_axis_months_distinct|].
  split; [apply (month_axis_strings_distinct start_year end_year); lia|].
  split; [intros y m Hy Hm; now apply month_axis_covers|].
  split.
  - intros <-. subst n.
    replace (12 * (start_year - start_year + 1)) with 12 by lia.
    change (Z.to_nat 12) with 12%nat.
    unfold month_axis, nth_month. cbn. now rewrite Z.add_0_r.
  - intros Hk. split.
    + apply rmap_strptime_strftime; [exact Hv|].
      now apply month_axis_four_digits.
    + apply (month_axis_strings_sorted start_year end_year); lia.
Qed.

Lemma generate_monthly_dates_axis_witness :
  (1 <= 2000 /\ 2000 <= 2001 /\ 2001 <= 9998)
  /\ exists axis,
       generate_monthly_dates 2000 2001 = Ok (map strftime axis)
       /\ Z.of_nat (List.length (map strftime axis)) = 12 * (2001 - 2000 + 1)
       /\ StronglySorted date_lt axis
       /\ Forall (fun d => day d = 1) axis
       /\ NoDup (map calendar_month axis)
       /\ NoDup (map strftime axis)
       /\ (forall y m, 2000 <= y <= 2001 -> 1 <= m <= 12 ->
                       In (Datetime.mk y m 1) axis)
       /\ (2000 = 2001 ->
           axis = map (fun m => Datetime.mk 2000 m 1)
                      [1; 2; 3; 4; 5; 6; 7; 8; 9; 10; 11; 12])
       /\ (1000 <= 2000 ->
           rmap strptime (map strftime axis) = Ok axis
           /\ StronglySorted string_lt (map strftime axis)).
Proof.
  split; [lia|]. apply (generate_monthly_dates_axis 2000 2001); lia.
Defined.

(** C8.  The generator is a function of its two arguments alone: run
    inside the script's monad it leaves the world as it found it, and two
    invocations in a row with the same arguments deliver the same
    sequence. *)
Theorem generate_monthly_dates_pure start_year end_year w :
  lift (generate_monthly_dates start_year end_year) w
  = (generate_monthly_dates start_year end_year, w)
  /\ (first <- lift (generate_monthly_dates start_year end_year) ;;
      second <- lift (generate_monthly_dates start_year end_year) ;;
      ret (first, second)) w
     = (rbind (generate_monthly_dates start_year end_year)
          (fun dates => Ok (dates, dates)), w).
Proof.
  split; [reflexivity|].
  unfold bind, lift, ret.
  now destruct (generate_monthly_dates start_year end_year).
Qed.

(** C9, as stated, fails when a year leaves the supported range: for
    [start_year = 1 > end_year = 0] the constructor call for the end date
    raises. *)
Lemma generate_monthly_dates_reversed_year_zero :
  1 > 0
  /\ generate_monthly_dates 1 0 = Raise (ValueError "year 0 is out of range")
  /\ generate_monthly_dates 1 0 <> Ok [].
Proof.
  split; [lia|]. split; [reflexivity|]. discriminate.
Qed.

(** C9, amended: for [1 <= end_year < start_year <= 9999] the generator
    returns the empty list, and the collector returns three empty sequences
    having made no transport call and no pause: the world only gains the
    two log records. *)
Theorem generate_monthly_dates_reversed start_year end_year :
  1 <= end_year -> end_year < start_year -> start_year <= 9999 ->
  generate_monthly_dates start_year end_year = Ok []
  /\ forall transport sleep_error lat lon api_key delay w,
       collect_timeseries_data transport sleep_error lat lon start_year end_year
         api_key delay w
       = (Ok ([], [], []),
          mk_world (n_calls w)
            (trace w ++ [EvLog INFO (MsgCollecting 0 start_year end_year);
                         EvLog INFO (MsgComplete 0 0)])).
Proof.
  intros He Hes Hs.
  assert (Hg : generate_monthly_dates start_year end_year = Ok []).
  { unfold generate_monthly_dates.
    rewrite new_first_of_month by lia.
    rewrite new_valid by (cbn; lia). cbn [rbind].
    rewrite month_loop_eq.
    replace (Datetime.leb _ _) with false; [reflexivity|].
    symmetry. unfold Datetime.leb; cbn [year month day]. zbool. lia. }
  split; [exact Hg|].
  intros transport sleep_error lat lon api_key delay w.
  unfold collect_timeseries_data. rewrite Hg.
  unfold bind, lift, log, ret, emit. cbn. now rewrite <- app_assoc.
Qed.

Lemma generate_monthly_dates_reversed_witness :
  (1 <= 2024 /\ 2024 < 2025 /\ 2025 <= 9999)
  /\ generate_monthly_dates 2025 2024 = Ok []
  /\ forall transport sleep_error lat lon api_key delay w,
       collect_timeseries_data transport sleep_error lat lon 2025 2024
         api_key delay w
       = (Ok ([], [], []),
          mk_world (n_calls w)
            (trace w ++ [EvLog INFO (MsgCollecting 0 2025 2024);
                         EvLog INFO (MsgComplete 0 0)])).
Proof.
  split; [lia|]. apply (generate_monthly_dates_reversed 2025 2024); lia.
Defined.

(** ** Point fetcher *)

(** C3.  Whatever the failure kind (a status code other than 200, a
    payload whose status is not ['success'], an exception of the transport,
    a payload that does not decode or is not of the expected shape), the
    fetcher returns [None] without raising, and its whole effect on the
    world is the one transport call followed by exactly one warning, which
    names the date and the metric. *)
Theorem fetch_sst_data_failure transport lat lon data_type date api_key
    base_url endpoint w :
  failure (transport (n_calls w)
             (build_request lat lon data_type date api_key base_url endpoint)) ->
  exists msg,
    fetch_sst_data transport lat lon data_type date api_key base_url endpoint w
    = (Ok PyNone,
       mk_world (S (n_calls w))
         (trace w ++ [EvGet (build_request lat lon data_type date api_key
                               base_url endpoint);
                      EvLog WARNING msg]))
    /\ message_subject msg = Some (date, data_type).
Proof.
  intros Hf. rewrite fetch_sst_data_run. cbv zeta.
  destruct (failure_outcome data_type date _ Hf) as (msg & -> & Hm).
  exists msg. split; [reflexivity|exact Hm].
Qed.

Lemma fetch_sst_data_failure_witness :
  failure (failing_transport 0
             (build_request 38.13 4.13 "mean" "2000-01-01" API_KEY
                API_BASE_URL API_ENDPOINT))
  /\ exists msg,
       fetch_sst_data failing_transport 38.13 4.13 "mean" "2000-01-01" API_KEY
         API_BASE_URL API_ENDPOINT initial_world
       = (Ok PyNone,
          mk_world 1
            [EvGet (build_request 38.13 4.13 "mean" "2000-01-01" API_KEY
                      API_BASE_URL API_ENDPOINT);
             EvLog WARNING msg])
       /\ message_subject msg = Some ("2000-01-01", "mean").
Proof.
  assert (H : failure (failing_transport 0
                         (build_request 38.13 4.13 "mean" "2000-01-01" API_KEY
                            API_BASE_URL API_ENDPOINT)))
    by (apply transport_status; lia).
  split; [exact H|].
  exact (fetch_sst_data_failure failing_transport 38.13 4.13 "mean" "2000-01-01"
           API_KEY API_BASE_URL API_ENDPOINT initial_world H).
Defined.

(** C4.  Against a transport answering status 200 with the payload
    [{"status": "success", "data": {"temperature": 17.5}}], a fetch of the
    metric ['mean'] returns [17.5] and a fetch of ['anomaly'] returns
    [None]; neither logs anything. *)
Theorem fetch_sst_data_sample lat lon date api_key base_url endpoint w :
  fetch_sst_data sample_transport lat lon "mean" date api_key base_url endpoint w
  = (Ok (PyFloat 17.5%float),
     mk_world (S (n_calls w))
       (trace w ++ [EvGet (build_request lat lon "mean" date api_key
                             base_url endpoint)]))
  /\ fetch_sst_data sample_transport lat lon "anomaly" date api_key base_url
       endpoint w
     = (Ok PyNone,
        mk_world (S (n_calls w))
          (trace w ++ [EvGet (build_request lat lon "anomaly" date api_key
                                base_url endpoint)])).
Proof.
  split; rewrite fetch_sst_data_run; reflexivity.
Qed.

(** C10.  On a decoded payload whose status is ['success'], the fetcher
    reads the field [temperature] when [data_type] is exactly ['mean'] and
    the field [anomaly] for every other [data_type]; no selector is
    rejected.  The read is [data_obj.get(field)]: its value is returned,
    and if the data object has no [get] the fetch ends in a warning and
    [None]. *)
Theorem fetch_sst_data_selector transport lat lon data_type date api_key
    base_url endpoint w data status :
  let r := build_request lat lon data_type date api_key base_url endpoint in
  let read field data_obj :=
    match py_get data_obj field PyNone with
    | Ok v => (Ok v, mk_world (S (n_calls w)) (trace w ++ [EvGet r]))
    | Raise e =>
        (Ok PyNone,
         mk_world (S (n_calls w))
           (trace w ++ [EvGet r; EvLog WARNING (MsgUnexpected date data_type e)]))
    end in
  transport (n_calls w) r = Ok (mk_response 200 (Ok data)) ->
  py_get data "status" PyNone = Ok status ->
  py_eq_str status "success" = true ->
  exists data_obj,
    py_get data "data" (PyDict []) = Ok data_obj
    /\ (data_type = "mean" ->
        fetch_sst_data transport lat lon data_type date api_key base_url endpoint w
        = read "temperature" data_obj)
    /\ (data_type <> "mean" ->
        fetch_sst_data transport lat lon data_type date api_key base_url endpoint w
        = read "anomaly" data_obj).
Proof.
  intros r read Ht Hs Heq.
  destruct (py_get_Ok_dict _ _ _ _ Hs) as [items ->].
  eexists. split; [reflexivity|].
  rewrite fetch_sst_data_run. cbv zeta. fold r. rewrite Ht.
  unfold fetch_outcome. cbn [status_code json].
  change (200 =? 200) with true. cbv iota. rewrite Hs, Heq.
  cbn [py_get]. subst read. cbv beta.
  set (data_obj := match lookup "data" items with
                   | Some x => x
                   | None => PyDict []
                   end).
  split; intros Hd.
  - subst data_type. cbn [metric_field String.eqb]. unfold metric_field.
    change ("mean" =? "mean")%string with true. cbv iota.
    destruct (py_get data_obj "temperature" PyNone) as [v|e] eqn:E;
      [reflexivity|].
    unfold handled. rewrite (py_get_raises _ _ _ _ E).
    destruct data_obj; cbn in E; try discriminate; injection E as <-; reflexivity.
  - unfold metric_field.
    apply String.eqb_neq in Hd. rewrite Hd.
    destruct (py_get data_obj "anomaly" PyNone) as [v|e] eqn:E;
      [reflexivity|].
    unfold handled. rewrite (py_get_raises _ _ _ _ E).
    destruct data_obj; cbn in E; try discriminate; injection E as <-; reflexivity.
Qed.

Lemma fetch_sst_data_selector_witness :
  exists data_obj,
    py_get sample_payload "data" (PyDict []) = Ok data_obj
    /\ ("median" = "mean" ->
        fetch_sst_data sample_transport 38.13 4.13 "median" "2000-01-01" API_KEY
          API_BASE_URL API_ENDPOINT initial_world
        = match py_get data_obj "temperature" PyNone with
          | Ok v =>
              (Ok v,
               mk_world 1
                 (trace initial_world
                  ++ [EvGet (build_request 38.13 4.13 "median" "2000-01-01"
                               API_KEY API_BASE_URL API_ENDPOINT)]))
          | Raise e =>
              (Ok PyNone,
               mk_world 1
                 (trace initial_world
                  ++ [EvGet (build_request 38.13 4.13 "median" "2000-01-01"
                               API_KEY API_BASE_URL API_ENDPOINT);
                      EvLog WARNING (MsgUnexpected "2000-01-01" "median" e)]))
          end)
    /\ ("median" <> "mean" ->
        fetch_sst_data sample_transport 38.13 4.13 "median" "2000-01-01" API_KEY
          API_BASE_URL API_ENDPOINT initial_world
        = match py_get data_obj "anomaly" PyNone with
          | Ok v =>
              (Ok v,
               mk_world 1
                 (trace initial_world
                  ++ [EvGet (build_request 38.13 4.13 "median" "2000-01-01"
                               API_KEY API_BASE_URL API_ENDPOINT)]))
          | Raise e =>
              (Ok PyNone,
               mk_world 1
                 (trace initial_world
                  ++ [EvGet (build_request 38.13 4.13 "median" "2000-01-01"
                               API_KEY API_BASE_URL API_ENDPOINT);
                      EvLog WARNING (MsgUnexpected "2000-01-01" "median" e)]))
          end).
Proof.
  exact (fetch_sst_data_selector sample_transport 38.13 4.13 "median"
           "2000-01-01" API_KEY API_BASE_URL API_ENDPOINT initial_world
           sample_payload (PyStr "success") eq_refl eq_refl eq_refl).
Defined.

(** ** Series collector *)

(** C2.  For every input and every transport, the three sequences of a
    returning collection have the length of the generated date axis; and the
    collection does return whenever the axis is generated and its strings
    parse (it starts in the year 1000 or later, or is empty), the clock
    accepts the delay and the transport raises nothing from outside
    [Exception], however many of the fetches come back as [None]. *)
Theorem collect_timeseries_data_lengths transport sleep_error lat lon
    start_year end_year api_key delay w :
  (forall dates temperatures anomalies w',
     collect_timeseries_data transport sleep_error lat lon start_year end_year
       api_key delay w
     = (Ok (dates, temperatures, anomalies), w') ->
     exists axis,
       generate_monthly_dates start_year end_year = Ok axis
       /\ List.length dates = List.length axis
       /\ List.length temperatures = List.length axis
       /\ List.length anomalies = List.length axis)
  /\ (forall axis,
        generate_monthly_dates start_year end_year = Ok axis ->
        1000 <= start_year \/ axis = [] ->
        sleep_error delay = None ->
        (forall n r, catchable (transport n r) = true) ->
        exists dates temperatures anomalies w',
          collect_timeseries_data transport sleep_error lat lon start_year
            end_year api_key delay w
          = (Ok (dates, temperatures, anomalies), w')
          /\ List.length dates = List.length axis
          /\ List.length temperatures = List.length axis
          /\ List.length anomalies = List.length axis).
Proof.
  split.
  - intros dates temperatures anomalies w' H.
    apply collect_timeseries_data_Ok in H.
    destruct H as (axis & Hg & Hp & -> & -> & _).
    exists axis. rewrite !fetched_length. apply rmap_length in Hp. auto.
  - intros axis Hg Hy Hs Ht.
    destruct (collect_timeseries_data_total transport sleep_error lat lon
                api_key delay Hs Ht start_year end_year axis w Hg Hy)
      as (dates & w' & Hp & H).
    do 4 eexists. split; [exact H|].
    rewrite !fetched_length. apply rmap_length in Hp. auto.
Qed.

Lemma collect_timeseries_data_lengths_witness :
  exists dates temperatures anomalies w',
    collect_timeseries_data failing_transport time_sleep_error 38.13 4.13
      2000 2000 API_KEY 0.1 initial_world
    = (Ok (dates, temperatures, anomalies), w')
    /\ List.length dates = 12%nat
    /\ List.length temperatures = 12%nat
    /\ List.length anomalies = 12%nat.
Proof.
  destruct (collect_timeseries_data_lengths failing_transport time_sleep_error
              38.13 4.13 2000 2000 API_KEY 0.1 initial_world) as [_ H].
  apply (H (map strftime (month_axis 2000 12)));
    [vm_compute; reflexivity | left; lia | reflexivity | intros; reflexivity].
Defined.

(** C5.  Against the simulated transport, whose [i]-th call succeeds with
    temperature [20.0 + 0.01 * i] and anomaly [0.5], collecting the two
    years [start_year] and [start_year + 1], for a start year from 1000 to
    9997, yields 24 entries in each sequence, none of them [None], with
    strictly increasing temperatures. *)
Theorem collect_timeseries_data_simulated sleep_error lat lon start_year
    api_key delay :
  1000 <= start_year -> start_year <= 9997 -> sleep_error delay = None ->
  exists dates temperatures anomalies w',
    collect_timeseries_data sim_transport sleep_error lat lon start_year
      (start_year + 1) api_key delay initial_world
    = (Ok (dates, temperatures, anomalies), w')
    /\ List.length dates = 24%nat
    /\ List.length temperatures = 24%nat
    /\ List.length anomalies = 24%nat
    /\ forallb is_not_None temperatures = true
    /\ forallb is_not_None anomalies = true
    /\ strictly_increasing temperatures = true
    /\ temperatures = map (fun k => PyFloat (sim_temperature (2 * k))) (seq 0 24)
    /\ n_calls w' = 48%nat.
Proof.
  intros Hs He Hd.
  assert (Hg : generate_monthly_dates start_year (start_year + 1)
               = Ok (map strftime (month_axis start_year 24))).
  { rewrite generate_monthly_dates_closed by lia.
    now replace (12 * (start_year + 1 - start_year + 1)) with 24 by lia. }
  destruct (collect_timeseries_data_total sim_transport sleep_error lat lon
              api_key delay Hd (fun _ _ => eq_refl) start_year (start_year + 1)
              _ initial_world Hg (or_introl Hs)) as (dates & w' & Hp & H).
  pose proof (collect_timeseries_data_Ok _ _ _ _ _ _ _ _ _ _ _ _ _ H)
    as (axis & Hg' & _ & _ & _ & Hn & _).
  assert (axis = map strftime (month_axis start_year 24)) by congruence.
  subst axis.
  rewrite fetched_sim_mean, fetched_sim_anomaly in H.
  rewrite length_map, month_axis_length in H, Hn.
  do 4 eexists. split; [exact H|].
  apply rmap_length in Hp. rewrite length_map, month_axis_length in Hp.
  split; [exact Hp|].
  split; [now rewrite length_map, length_seq|].
  split; [now rewrite repeat_length|].
  split; [reflexivity|]. split; [reflexivity|].
  split; [vm_compute; reflexivity|].
  split; [reflexivity|exact Hn].
Qed.

Lemma collect_timeseries_data_simulated_witness :
  (1000 <= 2000 /\ 2000 <= 9997 /\ time_sleep_error 0.1 = None)
  /\ exists dates temperatures anomalies w',
       collect_timeseries_data sim_transport time_sleep_error 38.13 4.13 2000
         (2000 + 1) API_KEY 0.1 initial_world
       = (Ok (dates, temperatures, anomalies), w')
       /\ List.length dates = 24%nat
       /\ List.length temperatures = 24%nat
       /\ List.length anomalies = 24%nat
       /\ forallb is_not_None temperatures = true
       /\ forallb is_not_None anomalies = true
       /\ strictly_increasing temperatures = true
       /\ temperatures = map (fun k => PyFloat (sim_temperature (2 * k))) (seq 0 24)
       /\ n_calls w' = 48%nat.
Proof.
  split; [split; [lia|split; [lia|reflexivity]]|].
  apply (collect_timeseries_data_simulated time_sleep_error 38.13 4.13 2000
           API_KEY 0.1); [lia|lia|reflexivity].
Defined.

(** C6.  In every returning collection the transport calls and pauses
    happen in the order of the date axis: for each date the ['mean'] fetch,
    a pause, the ['anomaly'] fetch, a pause; the dates returned are the
    parsed axis, and the value at each index of a sequence is what the
    fetch for the date at that index gave (calls [c + 2k] and [c + 2k + 1]
    of the transport for the [k]-th date).  The collection returns
    whenever the axis is generated and its strings parse (it starts in the
    year 1000 or later, or is empty), the clock accepts the delay and the
    transport raises nothing from outside [Exception]. *)
Theorem collect_timeseries_data_order transport sleep_error lat lon
    start_year end_year api_key delay w :
  (forall dates temperatures anomalies w',
     collect_timeseries_data transport sleep_error lat lon start_year end_year
       api_key delay w
     = (Ok (dates, temperatures, anomalies), w') ->
     exists axis,
       generate_monthly_dates start_year end_year = Ok axis
       /\ rmap strptime axis = Ok dates
       /\ effects (trace w')
          = (effects (trace w) ++ schedule lat lon api_key delay axis)%list
       /\ temperatures = fetched transport lat lon api_key "mean" (n_calls w) axis
       /\ anomalies
          = fetched transport lat lon api_key "anomaly" (S (n_calls w)) axis)
  /\ (forall axis,
        generate_monthly_dates start_year end_year = Ok axis ->
        1000 <= start_year \/ axis = [] ->
        sleep_error delay = None ->
        (forall n r, catchable (transport n r) = true) ->
        exists result w',
          collect_timeseries_data transport sleep_error lat lon start_year
            end_year api_key delay w
          = (Ok result, w')).
Proof.
  split.
  - intros dates temperatures anomalies w' H.
    apply collect_timeseries_data_Ok in H.
    destruct H as (axis & Hg & Hp & Ht & Ha & _ & He).
    exists axis. auto.
  - intros axis Hg Hy Hs Ht.
    destruct (collect_timeseries_data_total transport sleep_error lat lon
                api_key delay Hs Ht start_year end_year axis w Hg Hy)
      as (dates & w' & _ & H).
    eauto.
Qed.

Lemma collect_timeseries_data_order_witness :
  exists axis,
    generate_monthly_dates 2000 2000 = Ok axis
    /\ rmap strptime axis = Ok (month_axis 2000 12)
    /\ effects (trace (snd (collect_timeseries_data failing_transport
                              time_sleep_error 38.13 4.13 2000 2000 API_KEY 0.1
                              initial_world)))
       = (effects (trace initial_world) ++ schedule 38.13 4.13 API_KEY 0.1 axis)%list
    /\ repeat PyNone 12
       = fetched failing_transport 38.13 4.13 API_KEY "mean" 0 axis
    /\ repeat PyNone 12
       = fetched failing_transport 38.13 4.13 API_KEY "anomaly" 1 axis.
Proof.
  destruct (collect_timeseries_data_order failing_transport time_sleep_error
              38.13 4.13 2000 2000 API_KEY 0.1 initial_world) as [H _].
  apply (H (month_axis 2000 12) (repeat PyNone 12) (repeat PyNone 12)
           (snd (collect_timeseries_data failing_transport time_sleep_error
                   38.13 4.13 2000 2000 API_KEY 0.1 initial_world))).
  vm_compute. reflexivity.
Defined.

(** ** Chart title *)

(** C7 does not hold of the code: the title's date range is the literal
    [1981-2025].  A run for the years 2000 and 2001, in which the plotting
    library raises nothing, returns 0 and saves one chart, whose plotted
    dates are the 24 months of 2000 and 2001 and whose title still ends in
    [(1981-2025)]. *)
Theorem main_title_fixed_range float_str :
  exists w' c,
    main sim_transport time_sleep_error float_str plt_silent plt_silent plt_silent
      args_2000_2001 initial_world
    = (Ok 0, w')
    /\ saved_charts (trace w') = [c]
    /\ temp_dates c = month_axis 2000 24
    /\ chart_title c
       = ("SST Time Series: Temperature and Anomaly" ++ String "010"%char "Location: "
            ++ float_str DEFAULT_LAT ++ "°N, " ++ float_str DEFAULT_LON
            ++ "°E (1981-2025)")%string.
Proof.
  eexists. eexists.
  split; [vm_compute; reflexivity|].
  split; [vm_compute; reflexivity|].
  split; [vm_compute; reflexivity|].
  reflexivity.
Qed.

(** * Further properties of the code *)

(** ** Date-axis generator: domain, shape and composition *)

Lemma nth_month_next_in_range sy k :
  1 <= sy -> Z.of_nat (S k) < 12 * (10000 - sy) ->
  next_month (nth_month sy k) = Ok (nth_month sy (S k)).
Proof.
  intros Hs Hk. unfold next_month, nth_month; cbn [year month day].
  rewrite Nat2Z.inj_succ in *.
  destruct (Z.of_nat k mod 12 + 1 =? 12) eqn:Hm; zbool_in Hm;
    (rewrite new_first_of_month; [f_equal; f_equal; lia | lia | lia]).
Qed.

(** With the last supported year as end year the loop reaches December
    9999 and raises on the month after it. *)
Lemma month_loop_overflow sy n : forall k dates,
  1 <= sy <= 9999 ->
  Z.of_nat (k + n) = 12 * (10000 - sy) - 1 ->
  month_loop (Datetime.mk 9999 12 31) (nth_month sy k) dates
  = Raise (ValueError "year 10000 is out of range").
Proof.
  induction n as [|n IH]; intros k dates Hs Hk; rewrite month_loop_eq;
    rewrite (nth_month_leb sy 9999 k) by lia.
  - unfold next_month, nth_month; cbn [year month day].
    replace (Z.of_nat k mod 12 + 1 =? 12) with true by (symmetry; zbool; lia).
    replace (sy + Z.of_nat k / 12 + 1) with 10000 by lia. reflexivity.
  - rewrite nth_month_next_in_range by lia. apply IH; lia.
Qed.

Lemma generate_monthly_dates_Ok start_year end_year :
  axis_years start_year end_year ->
  generate_monthly_dates start_year end_year
  = Ok (map strftime
          (month_axis start_year (Z.to_nat (12 * (end_year - start_year + 1))))).
Proof.
  intros (Hs & He & Hc).
  destruct (Z.lt_ge_cases end_year start_year) as [Hlt|Hge].
  - replace (Z.to_nat (12 * (end_year - start_year + 1))) with 0%nat by lia.
    unfold generate_monthly_dates.
    rewrite new_first_of_month by lia.
    rewrite new_valid by (cbn; lia). cbn [rbind].
    rewrite month_loop_eq.
    replace (Datetime.leb _ _) with false; [reflexivity|].
    symmetry. unfold Datetime.leb; cbn [year month day]. zbool. lia.
  - apply generate_monthly_dates_closed; lia.
Qed.

Lemma year_error_None y : year_error y = None -> 1 <= y <= 9999.
Proof.
  unfold year_error, MINYEAR, MAXYEAR. destruct (c_int_error y); [discriminate|].
  destruct ((1 <=? y) && (y <=? 9999)) eqn:Hy; [|discriminate].
  zbool_in Hy. intros _. exact Hy.
Qed.

(** A refused year makes the constructor raise, whatever month and day of
    the script go with it. *)
Lemma new_year_error y m d e :
  year_error y = Some e -> - 2147483648 <= m <= 2147483647 ->
  - 2147483648 <= d <= 2147483647 -> Datetime.new y m d = Raise e.
Proof.
  unfold year_error, Datetime.new. intros Hy Hm Hd.
  destruct (c_int_error y); [congruence|].
  rewrite !c_int_error_None by lia. unfold new_checked.
  destruct ((MINYEAR <=? y) && (y <=? MAXYEAR)); [discriminate|].
  cbn [negb]. congruence.
Qed.

Lemma generate_monthly_dates_Raise start_year end_year :
  ~ axis_years start_year end_year ->
  generate_monthly_dates start_year end_year
  = Raise (axis_error start_year end_year).
Proof.
  unfold axis_years, axis_error. intros Hc. unfold generate_monthly_dates.
  destruct (year_error start_year) as [e|] eqn:Hs.
  { rewrite (new_year_error _ _ _ _ Hs) by lia. reflexivity. }
  apply year_error_None in Hs.
  rewrite new_first_of_month by lia. cbn [rbind].
  destruct (year_error end_year) as [e|] eqn:He.
  { rewrite (new_year_error _ _ _ _ He) by lia. reflexivity. }
  apply year_error_None in He.
  rewrite new_valid by (cbn; lia). cbn [rbind].
  assert (end_year = 9999 /\ start_year <= 9999) as [-> Hsy] by lia.
  replace (Datetime.mk start_year 1 1) with (nth_month start_year 0)
    by (unfold nth_month; cbn; f_equal; lia).
  apply (month_loop_overflow start_year
           (Z.to_nat (12 * (10000 - start_year) - 1))); lia.
Qed.

Lemma axis_years_dec start_year end_year :
  axis_years start_year end_year \/ ~ axis_years start_year end_year.
Proof. unfold axis_years. lia. Qed.

Lemma generate_monthly_dates_Ok_inv start_year end_year axis :
  generate_monthly_dates start_year end_year = Ok axis ->
  axis_years start_year end_year
  /\ axis = map strftime
             (month_axis start_year (Z.to_nat (12 * (end_year - start_year + 1)))).
Proof.
  intros H. destruct (axis_years_dec start_year end_year) as [Hy|Hn].
  - split; [exact Hy|]. rewrite generate_monthly_dates_Ok in H by exact Hy.
    congruence.
  - rewrite generate_monthly_dates_Raise in H by exact Hn. discriminate.
Qed.

(** X1.  The generator returns exactly when both years lie in 1..9999 and
    the end year is either below the start year or at most 9998; it then
    returns the first days of all months from January of the start year to
    December of the end year (none if the range is reversed).  In every
    other case it raises what the constructor raises for the start year,
    else for the end year ([ValueError] naming the year when it is outside
    1..9999, [OverflowError] when it does not fit a C integer), and, for a
    range of supported years ending in 9999, the [ValueError] of the year
    10000 that follows the last month. *)
Theorem generate_monthly_dates_domain start_year end_year :
  (axis_years start_year end_year ->
   generate_monthly_dates start_year end_year
   = Ok (map strftime
           (month_axis start_year (Z.to_nat (12 * (end_year - start_year + 1))))))
  /\ (~ axis_years start_year end_year ->
      generate_monthly_dates start_year end_year
      = Raise (axis_error start_year end_year))
  /\ ((exists axis, generate_monthly_dates start_year end_year = Ok axis)
      <-> axis_years start_year end_year).
Proof.
  split; [apply generate_monthly_dates_Ok|].
  split; [apply generate_monthly_dates_Raise|].
  split.
  - intros [axis H]. now apply generate_monthly_dates_Ok_inv in H.
  - intros H. eexists. now apply generate_monthly_dates_Ok.
Qed.

Lemma generate_monthly_dates_domain_witness :
  generate_monthly_dates 1981 2025
  = Ok (map strftime (month_axis 1981 (Z.to_nat (12 * (2025 - 1981 + 1)))))
  /\ generate_monthly_dates 1981 9999
     = Raise (ValueError "year 10000 is out of range")
  /\ generate_monthly_dates (-5) 2025
     = Raise (ValueError "year -5 is out of range")
  /\ generate_monthly_dates 1981 2147483648
     = Raise (OverflowError "signed integer is greater than maximum").
Proof.
  destruct (generate_monthly_dates_domain 1981 2025) as (H1 & _ & _).
  destruct (generate_monthly_dates_domain 1981 9999) as (_ & H2 & _).
  destruct (generate_monthly_dates_domain (-5) 2025) as (_ & H3 & _).
  destruct (generate_monthly_dates_domain 1981 2147483648) as (_ & H4 & _).
  split; [|split; [|split]].
  - apply H1. unfold axis_years. lia.
  - apply H2. unfold axis_years. lia.
  - apply H3. unfold axis_years. lia.
  - apply H4. unfold axis_years. lia.
Defined.

Lemma is_digit_digit n : is_digit (digit n) = true.
Proof. unfold is_digit. now rewrite digit_value_digit. Qed.

Lemma digit_0 : digit 0 = "0"%char.
Proof. reflexivity. Qed.

Lemma digit_1 : digit 1 = "1"%char.
Proof. reflexivity. Qed.

Lemma nth_month_shape sy k :
  1000 <= sy + Z.of_nat k / 12 <= 9999 ->
  iso_first_of_month (strftime (nth_month sy k)) = true
  /\ String.length (strftime (nth_month sy k)) = 10%nat.
Proof.
  intros Hy. unfold strftime, nth_month; cbn [year month day].
  rewrite decimal_pad4 by exact Hy.
  unfold pad4, pad2; cbn [append].
  change (1 / 10) with 0. rewrite digit_0, digit_1.
  cbn [iso_first_of_month]. rewrite !is_digit_digit. split; reflexivity.
Qed.

(** X2.  From the start year 1000 on, every string the generator returns
    has the form [YYYY-MM-01]: ten characters, four digits, a dash, two
    digits, a dash and the day [01]. *)
Theorem generate_monthly_dates_format start_year end_year axis :
  1000 <= start_year ->
  generate_monthly_dates start_year end_year = Ok axis ->
  Forall (fun s => iso_first_of_month s = true /\ String.length s = 10%nat) axis.
Proof.
  intros Hk H. apply generate_monthly_dates_Ok_inv in H.
  destruct H as ((Hs & He & Hc) & ->).
  apply Forall_forall. intros s Hs'.
  apply in_map_iff in Hs'. destruct Hs' as (d & <- & Hd).
  apply in_map_iff in Hd. destruct Hd as (k & <- & Hin).
  apply in_seq in Hin. apply nth_month_shape. lia.
Qed.

Lemma generate_monthly_dates_format_witness :
  Forall (fun s => iso_first_of_month s = true /\ String.length s = 10%nat)
    (map strftime (month_axis 2024 12)).
Proof.
  apply (generate_monthly_dates_format 2024 2024); [lia|reflexivity].
Defined.

Lemma map_seq_offset {A} (f : nat -> A) a n : forall b,
  map f (seq (a + b) n) = map (fun j => f (a + j)%nat) (seq b n).
Proof.
  induction n as [|n IH]; intros b; [reflexivity|].
  cbn [seq map]. f_equal. rewrite <- IH. f_equal. f_equal. lia.
Qed.

Lemma month_axis_app sy n1 n2 :
  month_axis sy (n1 + n2)
  = (month_axis sy n1 ++ map (fun j => nth_month sy (n1 + j)) (seq 0 n2))%list.
Proof.
  unfold month_axis. rewrite seq_app, map_app. f_equal.
  cbn [Nat.add]. rewrite <- map_seq_offset. f_equal. f_equal. lia.
Qed.

(** X3.  Axes compose: for [1 <= start_year <= mid_year < end_year <= 9998]
    the axis of the whole range is the axis up to [mid_year] followed by the
    axis from [mid_year + 1] on. *)
Theorem generate_monthly_dates_split start_year mid_year end_year :
  1 <= start_year -> start_year <= mid_year -> mid_year < end_year ->
  end_year <= 9998 ->
  generate_monthly_dates start_year end_year
  = rbind (generate_monthly_dates start_year mid_year) (fun first =>
    rbind (generate_monthly_dates (mid_year + 1) end_year) (fun second =>
    Ok (first ++ second)%list)).
Proof.
  intros Hs Hm He Hr.
  rewrite !generate_monthly_dates_Ok by (unfold axis_years; lia).
  cbn [rbind]. f_equal. rewrite <- map_app. f_equal.
  replace (Z.to_nat (12 * (end_year - start_year + 1)))
    with (Z.to_nat (12 * (mid_year - start_year + 1))
          + Z.to_nat (12 * (end_year - (mid_year + 1) + 1)))%nat by lia.
  rewrite month_axis_app. f_equal.
  unfold month_axis. apply map_ext. intros j.
  unfold nth_month. rewrite Nat2Z.inj_add, Z2Nat.id by lia.
  f_equal; lia.
Qed.

Lemma generate_monthly_dates_split_witness :
  generate_monthly_dates 1981 2025
  = rbind (generate_monthly_dates 1981 1999) (fun first =>
    rbind (generate_monthly_dates (1999 + 1) 2025) (fun second =>
    Ok (first ++ second)%list)).
Proof.
  apply (generate_monthly_dates_split 1981 1999 2025); lia.
Defined.

(** X4.  On a range the generator accepts with [start_year <= end_year],
    the axis starts at January of the start year and ends at December of the
    end year. *)
Theorem generate_monthly_dates_endpoints start_year end_year axis :
  start_year <= end_year ->
  generate_monthly_dates start_year end_year = Ok axis ->
  hd_error axis = Some (strftime (Datetime.mk start_year 1 1))
  /\ last axis "" = strftime (Datetime.mk end_year 12 1).
Proof.
  intros Hse H. apply generate_monthly_dates_Ok_inv in H.
  destruct H as ((Hs & He & Hc) & ->).
  set (n := Z.to_nat (12 * (end_year - start_year + 1))).
  assert (Hn : n = S (n - 1)) by lia.
  split.
  - rewrite Hn. unfold month_axis. cbn [seq map hd_error].
    do 2 f_equal. unfold nth_month. cbn. f_equal. lia.
  - rewrite Hn. unfold month_axis. rewrite seq_S, !map_app. cbn [map].
    rewrite last_last. f_equal. unfold nth_month. f_equal; lia.
Qed.

Lemma generate_monthly_dates_endpoints_witness :
  hd_error (map strftime (month_axis 1981 540)) = Some "1981-01-01"
  /\ last (map strftime (month_axis 1981 540)) "" = "2025-12-01".
Proof.
  apply (generate_monthly_dates_endpoints 1981 2025); [lia|reflexivity].
Defined.

Lemma nth_error_axis sy n k s :
  nth_error (map strftime (month_axis sy n)) k = Some s ->
  (k < n)%nat /\ s = strftime (nth_month sy k).
Proof.
  unfold month_axis. rewrite map_map, nth_error_map, nth_error_seq.
  destruct (Nat.ltb_spec k n); cbn [option_map Nat.add]; [|discriminate].
  intros [= <-]. split; [assumption|reflexivity].
Qed.

(** X5.  No month is skipped: from the start year 1000 on, where the
    strings parse, each date of a returned axis is followed by the first day
    of the next calendar month, December by January of the following
    year. *)
Theorem generate_monthly_dates_successive start_year end_year axis k a b :
  1000 <= start_year ->
  generate_monthly_dates start_year end_year = Ok axis ->
  nth_error axis k = Some a ->
  nth_error axis (S k) = Some b ->
  exists d,
    strptime a = Ok d
    /\ strptime b
       = Ok (if month d =? 12 then Datetime.mk (year d + 1) 1 1
             else Datetime.mk (year d) (month d + 1) 1).
Proof.
  intros Hy H Ha Hb. apply generate_monthly_dates_Ok_inv in H.
  destruct H as ((Hs & He & Hc) & ->).
  apply nth_error_axis in Ha, Hb. destruct Ha as (_ & ->), Hb as (Hk & ->).
  assert (Hv : forall j, (j <= S k)%nat -> valid_date (nth_month start_year j)).
  { intros j Hj. apply (nth_month_valid start_year end_year); lia. }
  exists (nth_month start_year k).
  rewrite !strptime_strftime_valid
    by (try (apply Hv; lia); unfold nth_month; cbn [year]; lia).
  split; [reflexivity|]. f_equal.
  unfold nth_month; cbn [year month day]. rewrite Nat2Z.inj_succ.
  destruct (Z.of_nat k mod 12 + 1 =? 12) eqn:Hm; zbool_in Hm; f_equal; lia.
Qed.

Lemma generate_monthly_dates_successive_witness :
  exists d,
    strptime "2024-12-01" = Ok d
    /\ strptime "2025-01-01"
       = Ok (if month d =? 12 then Datetime.mk (year d + 1) 1 1
             else Datetime.mk (year d) (month d + 1) 1).
Proof.
  apply (generate_monthly_dates_successive 2024 2025
           (map strftime (month_axis 2024 24)) 11); [lia|reflexivity..].
Defined.

(** ** Point fetcher: one call, silent absence, soundness of values *)

(** X6.  One invocation of the fetcher makes exactly one transport call,
    whatever the answer and also when the call raises: there is no retry.
    Besides that call the trace gains at most one record, a warning. *)
Theorem fetch_sst_data_single_call transport lat lon data_type date api_key
    base_url endpoint w :
  let w' := snd (fetch_sst_data transport lat lon data_type date api_key
                   base_url endpoint w) in
  let r := build_request lat lon data_type date api_key base_url endpoint in
  n_calls w' = S (n_calls w)
  /\ effects (trace w') = (effects (trace w) ++ [EvGet r])%list
  /\ exists logs,
       trace w' = (trace w ++ EvGet r :: logs)%list
       /\ (List.length logs <= 1)%nat
       /\ Forall (fun e => exists msg, e = EvLog WARNING msg) logs.
Proof.
  cbv zeta. rewrite fetch_sst_data_run. cbv zeta. cbn [snd n_calls trace].
  split; [reflexivity|]. split.
  - rewrite effects_app.
    change (effects (?e :: ?l)) with (if is_effect e then e :: effects l else effects l).
    cbn [is_effect]. now rewrite effects_outcome_logs.
  - eexists. split; [reflexivity|].
    destruct (fetch_outcome _ _ _); cbn; split; auto.
    constructor; [now eexists|constructor].
Qed.

(** X7.  A success payload that lacks the requested field, or lacks the
    data object altogether, gives [None] silently: no warning is logged,
    so the caller cannot tell it from a measurement that is absent. *)
Theorem fetch_sst_data_missing_field transport lat lon data_type date api_key
    base_url endpoint w items :
  transport (n_calls w)
    (build_request lat lon data_type date api_key base_url endpoint)
  = Ok (mk_response 200 (Ok (PyDict items))) ->
  lookup "status" items = Some (PyStr "success") ->
  (lookup "data" items = None
   \/ exists fields, lookup "data" items = Some (PyDict fields)
                     /\ lookup (metric_field data_type) fields = None) ->
  fetch_sst_data transport lat lon data_type date api_key base_url endpoint w
  = (Ok PyNone,
     mk_world (S (n_calls w))
       (trace w ++ [EvGet (build_request lat lon data_type date api_key
                             base_url endpoint)])).
Proof.
  intros Ht Hs Hd. rewrite fetch_sst_data_run. cbv zeta. rewrite Ht.
  unfold fetch_outcome. cbn [status_code json py_get].
  change (200 =? 200) with true. cbv iota. rewrite Hs. cbn [py_eq_str].
  change ("success" =? "success")%string with true. cbv iota.
  destruct Hd as [Hd|(fields & Hd & Hf)]; rewrite Hd; cbn [py_get lookup].
  - reflexivity.
  - rewrite Hf. reflexivity.
Qed.

Lemma fetch_sst_data_missing_field_witness :
  fetch_sst_data sample_transport 38.13 4.13 "anomaly" "2000-01-01" API_KEY
    API_BASE_URL API_ENDPOINT initial_world
  = (Ok PyNone,
     mk_world 1
       (trace initial_world
        ++ [EvGet (build_request 38.13 4.13 "anomaly" "2000-01-01" API_KEY
                     API_BASE_URL API_ENDPOINT)])).
Proof.
  apply (fetch_sst_data_missing_field sample_transport 38.13 4.13 "anomaly"
           "2000-01-01" API_KEY API_BASE_URL API_ENDPOINT initial_world
           [("status", PyStr "success");
            ("data", PyDict [("temperature", PyFloat 17.5)])]).
  - reflexivity.
  - reflexivity.
  - right. eexists. split; reflexivity.
Defined.

Lemma py_eq_str_true v s : py_eq_str v s = true -> v = PyStr s.
Proof.
  destruct v; cbn; try discriminate. intros H.
  apply String.eqb_eq in H. now subst.
Qed.

Lemma handled_not_Returned data_type date e v :
  handled data_type date e <> Returned v.
Proof.
  unfold handled. destruct (is_RequestException e); [discriminate|].
  destruct (is_Exception e); discriminate.
Qed.

(** A value comes out of the [try] block only along the success path. *)
Lemma fetch_outcome_Returned data_type date answer v :
  fetch_outcome data_type date answer = Returned v ->
  exists items data_obj,
    answer = Ok (mk_response 200 (Ok (PyDict items)))
    /\ lookup "status" items = Some (PyStr "success")
    /\ py_get (PyDict items) "data" (PyDict []) = Ok data_obj
    /\ py_get data_obj (metric_field data_type) PyNone = Ok v.
Proof.
  unfold fetch_outcome.
  destruct answer as [[code [data|e]]|e]; cbn [status_code json];
    try (intros H; now apply handled_not_Returned in H).
  - destruct (code =? 200) eqn:Hc; [|discriminate]. zbool_in Hc. subst code.
    destruct (py_get data "status" PyNone) as [status|e] eqn:Hs;
      [|intros H; now apply handled_not_Returned in H].
    destruct (py_eq_str status "success") eqn:Heq.
    + apply py_eq_str_true in Heq. subst status.
      destruct (py_get_Ok_dict _ _ _ _ Hs) as [items ->].
      destruct (py_get (PyDict items) "data" (PyDict [])) as [data_obj|e] eqn:Hd;
        [|intros H; now apply handled_not_Returned in H].
      destruct (py_get data_obj (metric_field data_type) PyNone) as [x|e] eqn:Hf;
        [|intros H; now apply handled_not_Returned in H].
      intros [= <-]. exists items, data_obj.
      split; [reflexivity|]. split; [|now split].
      cbn [py_get] in Hs. destruct (lookup "status" items); congruence.
    + destruct (py_get data "detail" (PyStr "Unknown error"));
        [discriminate|intros H; now apply handled_not_Returned in H].
  - destruct (code =? 200); [|discriminate].
    intros H; now apply handled_not_Returned in H.
Qed.

(** X8.  The fetcher never makes a value up: a result other than [None]
    is returned only when the transport answered status 200 with a payload
    whose status is ['success'] and whose data object holds exactly that
    value under the field of the requested metric; and in that case no
    warning is logged. *)
Theorem fetch_sst_data_value_sound transport lat lon data_type date api_key
    base_url endpoint w v w' :
  fetch_sst_data transport lat lon data_type date api_key base_url endpoint w
  = (Ok v, w') ->
  v <> PyNone ->
  exists items fields,
    transport (n_calls w)
      (build_request lat lon data_type date api_key base_url endpoint)
    = Ok (mk_response 200 (Ok (PyDict items)))
    /\ lookup "status" items = Some (PyStr "success")
    /\ lookup "data" items = Some (PyDict fields)
    /\ lookup (metric_field data_type) fields = Some v
    /\ w' = mk_world (S (n_calls w))
              (trace w ++ [EvGet (build_request lat lon data_type date api_key
                                    base_url endpoint)]).
Proof.
  rewrite fetch_sst_data_run. cbv zeta. intros [= Hr <-] Hv.
  destruct (fetch_outcome _ _ _) as [x|msg|e] eqn:Ho; cbn in Hr;
    try congruence.
  injection Hr as ->.
  apply fetch_outcome_Returned in Ho.
  destruct Ho as (items & data_obj & Ht & Hs & Hd & Hf).
  cbn [py_get] in Hd. injection Hd as Hd.
  destruct data_obj; cbn [py_get] in Hf; try discriminate.
  injection Hf as Hf.
  destruct (lookup (metric_field data_type) items0) as [x|] eqn:Hl;
    [|congruence]. subst x.
  destruct (lookup "data" items) as [d|] eqn:Hdl.
  - subst d. exists items, items0. repeat split; assumption.
  - injection Hd as <-. cbn in Hl. discriminate.
Qed.

Lemma fetch_sst_data_value_sound_witness :
  exists items fields,
    sample_transport 0
      (build_request 38.13 4.13 "mean" "2000-01-01" API_KEY API_BASE_URL
         API_ENDPOINT)
    = Ok (mk_response 200 (Ok (PyDict items)))
    /\ lookup "status" items = Some (PyStr "success")
    /\ lookup "data" items = Some (PyDict fields)
    /\ lookup (metric_field "mean") fields = Some (PyFloat 17.5)
    /\ mk_world 1 [EvGet (build_request 38.13 4.13 "mean" "2000-01-01" API_KEY
                            API_BASE_URL API_ENDPOINT)]
       = mk_world (S (n_calls initial_world))
           (trace initial_world
            ++ [EvGet (build_request 38.13 4.13 "mean" "2000-01-01" API_KEY
                         API_BASE_URL API_ENDPOINT)]).
Proof.
  apply (fetch_sst_data_value_sound sample_transport 38.13 4.13 "mean"
           "2000-01-01" API_KEY API_BASE_URL API_ENDPOINT initial_world
           (PyFloat 17.5)).
  - reflexivity.
  - discriminate.
Defined.

(** X9.  An exception from outside [Exception] (an interrupt) raised by the
    transport is not swallowed: it leaves the fetcher as it came, and
    nothing is logged. *)
Theorem fetch_sst_data_interrupt transport lat lon data_type date api_key
    base_url endpoint w e :
  transport (n_calls w)
    (build_request lat lon data_type date api_key base_url endpoint)
  = Raise e ->
  is_Exception e = false ->
  fetch_sst_data transport lat lon data_type date api_key base_url endpoint w
  = (Raise e,
     mk_world (S (n_calls w))
       (trace w ++ [EvGet (build_request lat lon data_type date api_key
                             base_url endpoint)])).
Proof.
  intros Ht He. rewrite fetch_sst_data_run. cbv zeta. rewrite Ht.
  unfold fetch_outcome, handled. rewrite He.
  destruct e; try discriminate; reflexivity.
Qed.

Lemma fetch_sst_data_interrupt_witness :
  fetch_sst_data (fun _ _ => Raise KeyboardInterrupt) 38.13 4.13 "mean"
    "2000-01-01" API_KEY API_BASE_URL API_ENDPOINT initial_world
  = (Raise KeyboardInterrupt,
     mk_world (S (n_calls initial_world))
       (trace initial_world
        ++ [EvGet (build_request 38.13 4.13 "mean" "2000-01-01" API_KEY
                     API_BASE_URL API_ENDPOINT)])).
Proof.
  apply (fetch_sst_data_interrupt (fun _ _ => Raise KeyboardInterrupt));
    reflexivity.
Defined.

(** X10.  The warning names the cause.  A status code other than 200 is
    reported with that code, whatever the body holds; a decoded payload
    whose status is not ['success'] is reported with the payload's [detail],
    or with ['Unknown error'] when the payload has none. *)
Theorem fetch_sst_data_warning_cause transport lat lon data_type date api_key
    base_url endpoint w :
  let r := build_request lat lon data_type date api_key base_url endpoint in
  let warned msg :=
    fetch_sst_data transport lat lon data_type date api_key base_url endpoint w
    = (Ok PyNone,
       mk_world (S (n_calls w)) (trace w ++ [EvGet r; EvLog WARNING msg])) in
  (forall code body,
     transport (n_calls w) r = Ok (mk_response code body) ->
     code <> 200 ->
     warned (MsgHttpFailed date data_type code))
  /\ (forall items status,
        transport (n_calls w) r = Ok (mk_response 200 (Ok (PyDict items))) ->
        py_get (PyDict items) "status" PyNone = Ok status ->
        py_eq_str status "success" = false ->
        warned (MsgNonSuccess date data_type
                  (match lookup "detail" items with
                   | Some detail => detail
                   | None => PyStr "Unknown error"
                   end))).
Proof.
  cbv zeta. split.
  - intros code body Ht Hc. rewrite fetch_sst_data_run. cbv zeta. rewrite Ht.
    unfold fetch_outcome. cbn [status_code].
    replace (code =? 200) with false by (symmetry; zbool; lia). reflexivity.
  - intros items status Ht Hs Hne. rewrite fetch_sst_data_run. cbv zeta.
    rewrite Ht. unfold fetch_outcome. cbn [status_code json].
    change (200 =? 200) with true. cbv iota. rewrite Hs, Hne. reflexivity.
Qed.

Lemma fetch_sst_data_warning_cause_witness :
  fetch_sst_data failing_transport 38.13 4.13 "mean" "2000-01-01" API_KEY
    API_BASE_URL API_ENDPOINT initial_world
  = (Ok PyNone,
     mk_world (S (n_calls initial_world))
       (trace initial_world
        ++ [EvGet (build_request 38.13 4.13 "mean" "2000-01-01" API_KEY
                     API_BASE_URL API_ENDPOINT);
            EvLog WARNING (MsgHttpFailed "2000-01-01" "mean" 500)])).
Proof.
  destruct (fetch_sst_data_warning_cause failing_transport 38.13 4.13 "mean"
              "2000-01-01" API_KEY API_BASE_URL API_ENDPOINT initial_world)
    as [H _].
  apply (H 500 (Raise (RequestException "Expecting value")));
    [reflexivity|lia].
Defined.

(** ** Series collector: counts, rejected delay, outage, returned dates *)

Lemma requests_made_app a b :
  requests_made (a ++ b) = (requests_made a + requests_made b)%nat.
Proof. unfold requests_made. now rewrite filter_app, length_app. Qed.

Lemma pauses_made_app a b :
  pauses_made (a ++ b) = (pauses_made a + pauses_made b)%nat.
Proof. unfold pauses_made. now rewrite filter_app, length_app. Qed.

Lemma requests_made_effects t : requests_made (effects t) = requests_made t.
Proof.
  unfold requests_made, effects.
  induction t as [|e t IH]; [reflexivity|].
  destruct e; cbn; rewrite ?IH; reflexivity || (cbn in IH; now rewrite IH).
Qed.

Lemma pauses_made_effects t : pauses_made (effects t) = pauses_made t.
Proof.
  unfold pauses_made, effects.
  induction t as [|e t IH]; [reflexivity|].
  destruct e; cbn; rewrite ?IH; reflexivity || (cbn in IH; now rewrite IH).
Qed.

Lemma schedule_counts lat lon api_key delay axis :
  requests_made (schedule lat lon api_key delay axis) = (2 * List.length axis)%nat
  /\ pauses_made (schedule lat lon api_key delay axis) = (2 * List.length axis)%nat.
Proof.
  induction axis as [|d rest [IH1 IH2]]; [now split|].
  unfold schedule in *. cbn [flat_map].
  rewrite requests_made_app, pauses_made_app, IH1, IH2. cbn. lia.
Qed.

(** X11.  A returning collection has made exactly two transport calls and
    two pauses for every date it returns, neither more (no retry) nor
    less (no date skipped after a failure). *)
Theorem collect_timeseries_data_counts transport sleep_error lat lon
    start_year end_year api_key delay w dates temperatures anomalies w' :
  collect_timeseries_data transport sleep_error lat lon start_year end_year
    api_key delay w
  = (Ok (dates, temperatures, anomalies), w') ->
  requests_made (trace w')
  = (requests_made (trace w) + 2 * List.length dates)%nat
  /\ pauses_made (trace w')
     = (pauses_made (trace w) + 2 * List.length dates)%nat.
Proof.
  intros H. apply collect_timeseries_data_Ok in H.
  destruct H as (axis & _ & Hp & _ & _ & _ & He).
  apply rmap_length in Hp. rewrite Hp.
  destruct (schedule_counts lat lon api_key delay axis) as [Hr Hs].
  rewrite <- (requests_made_effects (trace w')), <- (pauses_made_effects (trace w')).
  rewrite He, requests_made_app, pauses_made_app, Hr, Hs.
  now rewrite requests_made_effects, pauses_made_effects.
Qed.

Lemma collect_timeseries_data_counts_witness :
  requests_made
    (trace (snd (collect_timeseries_data failing_transport time_sleep_error
                   38.13 4.13 2000 2000 API_KEY 0.1 initial_world)))
  = (requests_made (trace initial_world) + 2 * List.length (month_axis 2000 12))%nat
  /\ pauses_made
       (trace (snd (collect_timeseries_data failing_transport time_sleep_error
                      38.13 4.13 2000 2000 API_KEY 0.1 initial_world)))
     = (pauses_made (trace initial_world) + 2 * List.length (month_axis 2000 12))%nat.
Proof.
  apply (collect_timeseries_data_counts failing_transport time_sleep_error
           38.13 4.13 2000 2000 API_KEY 0.1 initial_world (month_axis 2000 12)
           (repeat PyNone 12) (repeat PyNone 12)).
  vm_compute. reflexivity.
Defined.

(** A non-empty axis that starts before the year 1000 does not parse: its
    first string is refused. *)
Lemma generate_monthly_dates_unparsed start_year end_year date rest :
  generate_monthly_dates start_year end_year = Ok (date :: rest) ->
  start_year <= 999 ->
  exists msg, rmap strptime (date :: rest) = Raise (ValueError msg).
Proof.
  intros H Hk.
  pose proof (generate_monthly_dates_Ok_inv _ _ _ H) as ((Hs & Hy & Hc) & Ha).
  destruct (Z.to_nat (12 * (end_year - start_year + 1))) as [|n];
    [discriminate Ha|].
  unfold month_axis in Ha. cbn [seq map] in Ha. injection Ha as -> _.
  destruct (strptime_strftime_short (nth_month start_year 0)) as [msg Hm].
  { unfold nth_month; cbn [year]. change (Z.of_nat 0 / 12) with 0. lia. }
  exists msg. cbn [rmap]. now rewrite Hm.
Qed.

(** When the strings of an axis parse, they parse to the months of the
    range. *)
Lemma generate_monthly_dates_parses start_year end_year axis dates :
  generate_monthly_dates start_year end_year = Ok axis ->
  rmap strptime axis = Ok dates ->
  dates = month_axis start_year (Z.to_nat (12 * (end_year - start_year + 1))).
Proof.
  intros H Hp.
  pose proof (generate_monthly_dates_Ok_inv _ _ _ H) as ((Hs & Hy & Hc) & Ha).
  destruct (Z.le_gt_cases 1000 start_year) as [Hk|Hk].
  - subst axis. rewrite rmap_strptime_strftime in Hp.
    + congruence.
    + apply Forall_forall. intros d Hd.
      apply in_map_iff in Hd. destruct Hd as (k & <- & Hin).
      apply in_seq in Hin. apply (nth_month_valid start_year end_year); lia.
    + now apply month_axis_four_digits.
  - destruct axis as [|date rest].
    + injection Hp as <-.
      destruct (Z.to_nat (12 * (end_year - start_year + 1))); [reflexivity|].
      discriminate Ha.
    + destruct (generate_monthly_dates_unparsed _ _ _ _ H) as [msg Hm]; [lia|].
      congruence.
Qed.



(** The collection runs to its end as soon as no fetch lets an exception
    escape; this is weaker than every answer being [catchable]. *)
Section CollectRuns.

Variable transport : nat -> request -> result response.
Variable sleep_error : float -> option exn.
Variables lat lon : float.
Variable api_key : string.
Variable delay : float.

Hypothesis sleep_ok : sleep_error delay = None.
Hypothesis no_escape : forall n r data_type date,
  outcome_result (fetch_outcome data_type date (transport n r))
  = Ok (outcome_value (fetch_outcome data_type date (transport n r))).

Lemma collect_loop_runs total : forall axis i temperatures anomalies w,
  exists w',
    collect_loop transport sleep_error lat lon api_key delay total i axis
      temperatures anomalies w
    = (Ok ((temperatures
              ++ fetched transport lat lon api_key "mean" (n_calls w) axis)%list,
           (anomalies
              ++ fetched transport lat lon api_key "anomaly" (S (n_calls w)) axis)%list),
       w').
Proof.
  induction axis as [|date rest IH]; intros i temperatures anomalies w.
  - exists w. cbn. now rewrite !app_nil_r.
  - rewrite collect_loop_cons. cbv zeta.
    rewrite !no_escape. rewrite sleep_ok.
    match goal with
    | |- exists w', collect_loop _ _ _ _ _ _ _ _ _ ?t ?a ?w0 = _ =>
        destruct (IH (S i) t a w0) as [w' Hw']
    end.
    exists w'. rewrite Hw'. cbn [n_calls fetched]. now rewrite <- !app_assoc.
Qed.

Lemma collect_timeseries_data_runs sy ey axis w :
  generate_monthly_dates sy ey = Ok axis -> 1000 <= sy \/ axis = [] ->
  exists dates w',
    rmap strptime axis = Ok dates
    /\ collect_timeseries_data transport sleep_error lat lon sy ey api_key delay w
       = (Ok (dates,
              fetched transport lat lon api_key "mean" (n_calls w) axis,
              fetched transport lat lon api_key "anomaly" (S (n_calls w)) axis),
          w').
Proof.
  intros Hg Hy.
  destruct (generate_monthly_dates_parses_back _ _ _ Hg Hy) as (ds & _ & Hp).
  unfold collect_timeseries_data. rewrite Hg.
  unfold bind at 1, lift at 1. unfold bind at 1, lift at 1. rewrite Hp.
  unfold bind at 1, log at 1. unfold bind at 1.
  match goal with
  | |- context [collect_loop _ _ _ _ _ _ ?total ?i ?ax ?t ?a ?w0] =>
      destruct (collect_loop_runs total ax i t a w0) as [w1 Hw1]
  end.
  rewrite Hw1. cbn [app n_calls emit].
  eexists _, _. split; reflexivity.
Qed.

End CollectRuns.

Lemma failure_no_escape data_type date answer :
  failure answer ->
  outcome_result (fetch_outcome data_type date answer) = Ok PyNone
  /\ outcome_value (fetch_outcome data_type date answer) = PyNone.
Proof.
  intros Hf. destruct (failure_outcome data_type date _ Hf) as (msg & -> & _).
  now split.
Qed.

Lemma fetched_all_failures transport lat lon api_key data_type axis :
  (forall n r, failure (transport n r)) ->
  forall c, fetched transport lat lon api_key data_type c axis
            = repeat PyNone (List.length axis).
Proof.
  intros Hf. induction axis as [|d rest IH]; intros c; [reflexivity|].
  cbn [fetched List.length repeat]. f_equal; [|apply IH].
  apply failure_no_escape, Hf.
Qed.

Lemma count_present_repeat_None n : count_present (repeat PyNone n) = 0%nat.
Proof. unfold count_present. induction n; cbn; auto. Qed.

(** X13.  Under an outage, where every answer of the transport is a
    failure, the collection still runs to its end (given an accepted delay
    and an axis whose strings parse: one that starts in the year 1000 or
    later, or is empty): it returns the full list of dates and two
    sequences that are [None] at every index. *)
Theorem collect_timeseries_data_outage transport sleep_error lat lon
    start_year end_year api_key delay w axis :
  (forall n r, failure (transport n r)) ->
  sleep_error delay = None ->
  generate_monthly_dates start_year end_year = Ok axis ->
  1000 <= start_year \/ axis = [] ->
  exists dates w',
    collect_timeseries_data transport sleep_error lat lon start_year end_year
      api_key delay w
    = (Ok (dates, repeat PyNone (List.length axis),
           repeat PyNone (List.length axis)), w')
    /\ List.length dates = List.length axis
    /\ count_present (repeat PyNone (List.length axis)) = 0%nat.
Proof.
  intros Hf Hs Hg Hy.
  assert (Hne : forall n r data_type date,
             outcome_result (fetch_outcome data_type date (transport n r))
             = Ok (outcome_value (fetch_outcome data_type date (transport n r)))).
  { intros n r data_type date.
    destruct (failure_no_escape data_type date _ (Hf n r)) as [-> ->].
    reflexivity. }
  destruct (collect_timeseries_data_runs transport sleep_error lat lon
              api_key delay Hs Hne start_year end_year axis w Hg Hy)
    as (dates & w' & Hp & H).
  rewrite !fetched_all_failures in H by exact Hf.
  exists dates, w'. split; [exact H|].
  split; [now apply rmap_length in Hp|apply count_present_repeat_None].
Qed.

Lemma collect_timeseries_data_outage_witness :
  exists dates w',
    collect_timeseries_data failing_transport time_sleep_error 38.13 4.13
      2000 2000 API_KEY 0.1 initial_world
    = (Ok (dates, repeat PyNone (List.length (map strftime (month_axis 2000 12))),
           repeat PyNone (List.length (map strftime (month_axis 2000 12)))), w')
    /\ List.length dates = List.length (map strftime (month_axis 2000 12))
    /\ count_present (repeat PyNone (List.length (map strftime (month_axis 2000 12))))
       = 0%nat.
Proof.
  apply (collect_timeseries_data_outage failing_transport time_sleep_error
           38.13 4.13 2000 2000 API_KEY 0.1 initial_world).
  - intros n r. apply transport_status. lia.
  - reflexivity.
  - reflexivity.
  - left. lia.
Defined.

(** X14.  The dates a collection returns are the datetimes of the axis:
    parsing undoes the formatting, so they are the first days of the months
    of the range, and formatting them gives the axis back. *)
Theorem collect_timeseries_data_dates transport sleep_error lat lon
    start_year end_year api_key delay w dates temperatures anomalies w' :
  collect_timeseries_data transport sleep_error lat lon start_year end_year
    api_key delay w
  = (Ok (dates, temperatures, anomalies), w') ->
  dates = month_axis start_year (Z.to_nat (12 * (end_year - start_year + 1)))
  /\ generate_monthly_dates start_year end_year = Ok (map strftime dates)
  /\ Forall (fun d => day d = 1) dates
  /\ StronglySorted date_lt dates.
Proof.
  intros H. apply collect_timeseries_data_Ok in H.
  destruct H as (axis & Hg & Hp & _).
  rewrite (generate_monthly_dates_parses _ _ _ _ Hg Hp).
  split; [reflexivity|].
  split; [now pose proof (generate_monthly_dates_Ok_inv _ _ _ Hg) as (_ & ->)|].
  split; [apply month_axis_first_days|apply month_axis_sorted].
Qed.

Lemma collect_timeseries_data_dates_witness :
  month_axis 2000 12 = month_axis 2000 (Z.to_nat (12 * (2000 - 2000 + 1)))
  /\ generate_monthly_dates 2000 2000 = Ok (map strftime (month_axis 2000 12))
  /\ Forall (fun d => day d = 1) (month_axis 2000 12)
  /\ StronglySorted date_lt (month_axis 2000 12).
Proof.
  apply (collect_timeseries_data_dates failing_transport time_sleep_error
           38.13 4.13 2000 2000 API_KEY 0.1 initial_world (month_axis 2000 12)
           (repeat PyNone 12) (repeat PyNone 12)
           (snd (collect_timeseries_data failing_transport time_sleep_error
                   38.13 4.13 2000 2000 API_KEY 0.1 initial_world))).
  vm_compute. reflexivity.
Defined.

Lemma saved_charts_app a b :
  saved_charts (a ++ b) = (saved_charts a ++ saved_charts b)%list.
Proof. apply flat_map_app. Qed.

Lemma saved_charts_cons e l :
  saved_charts (e :: l)
  = (match e with EvSavefig c => [c] | _ => [] end ++ saved_charts l)%list.
Proof. reflexivity. Qed.

Lemma saved_charts_outcome_logs o : saved_charts (outcome_logs o) = [].
Proof. now destruct o. Qed.

Ltac no_charts :=
  repeat (rewrite ?saved_charts_app, ?saved_charts_cons,
            ?saved_charts_outcome_logs; cbn [app]);
  repeat match goal with H : saved_charts _ = [] |- _ => rewrite H end;
  reflexivity.

Section CollectTrace.

Variable transport : nat -> request -> result response.
Variable sleep_error : float -> option exn.
Variables lat lon : float.
Variable api_key : string.
Variable delay : float.

(** The loop only ever appends to the trace, and never a chart. *)
Lemma collect_loop_extends total : forall axis i temperatures anomalies w r w',
  collect_loop transport sleep_error lat lon api_key delay total i axis
    temperatures anomalies w = (r, w') ->
  exists mid, trace w' = (trace w ++ mid)%list /\ saved_charts mid = [].
Proof.
  induction axis as [|date rest IH]; intros i temperatures anomalies w r w' H.
  - cbn in H. injection H as <- <-. exists []. now rewrite app_nil_r.
  - rewrite collect_loop_cons in H. cbv zeta in H.
    set (t0 := if progress_due i
               then (trace w ++ [EvLog INFO (MsgProgress (i + 1) total)])%list
               else trace w) in H.
    assert (H0 : exists m0, t0 = (trace w ++ m0)%list /\ saved_charts m0 = []).
    { subst t0.
      destruct (progress_due i);
        [exists [EvLog INFO (MsgProgress (i + 1) total)]|exists []];
        split; rewrite ?app_nil_r; reflexivity. }
    destruct H0 as (m0 & -> & Hm0).
    destruct (outcome_result _) in H;
      [|injection H as <- <-; cbn [trace]; rewrite <- !app_assoc;
        eexists; split; [reflexivity|no_charts]].
    destruct (sleep_error delay);
      [injection H as <- <-; cbn [trace]; rewrite <- !app_assoc;
       eexists; split; [reflexivity|no_charts]|].
    destruct (outcome_result _) in H;
      [|injection H as <- <-; cbn [trace]; rewrite <- !app_assoc;
        eexists; split; [reflexivity|no_charts]].
    apply IH in H. cbn [trace] in H. destruct H as (mid & -> & Hmid).
    rewrite <- !app_assoc. eexists. split; [reflexivity|no_charts].
Qed.

(** The collector as a whole: whatever its result, the trace is extended
    and no chart is written. *)
Lemma collect_timeseries_data_extends sy ey w r w' :
  collect_timeseries_data transport sleep_error lat lon sy ey api_key delay w
  = (r, w') ->
  exists mid, trace w' = (trace w ++ mid)%list /\ saved_charts mid = [].
Proof.
  unfold collect_timeseries_data.
  unfold bind at 1, lift at 1.
  destruct (generate_monthly_dates sy ey) as [axis|e].
  2:{ intros [= <- <-]. exists []. now rewrite app_nil_r. }
  unfold bind at 1, lift at 1.
  destruct (rmap strptime axis) as [ds|e].
  2:{ intros [= <- <-]. exists []. now rewrite app_nil_r. }
  unfold bind at 1, log at 1. unfold bind at 1.
  destruct (collect_loop _ _ _ _ _ _ _ _ _ _ _ _) as [[[ts an]|e] w1] eqn:EL;
    apply collect_loop_extends in EL; cbn [trace emit] in EL;
    destruct EL as (mid & Hmid & Hc).
  - unfold bind, log, ret, emit. intros [= <- <-]. cbn [trace].
    rewrite Hmid, <- !app_assoc. eexists. split; [reflexivity|no_charts].
  - intros [= <- <-]. rewrite Hmid, <- !app_assoc.
    eexists. split; [reflexivity|no_charts].
Qed.

End CollectTrace.

Lemma count_present_le l : (count_present l <= List.length l)%nat.
Proof. unfold count_present. apply filter_length_le. Qed.

(** X15.  The log of a returning collection is bracketed: its first record
    announces the number of monthly samples and the two years, its last
    record reports for each metric how many of the returned entries are not
    [None]. *)
Theorem collect_timeseries_data_log_bracket transport sleep_error lat lon
    start_year end_year api_key delay w dates temperatures anomalies w' :
  collect_timeseries_data transport sleep_error lat lon start_year end_year
    api_key delay w
  = (Ok (dates, temperatures, anomalies), w') ->
  exists mid,
    trace w'
    = (trace w
       ++ EvLog INFO (MsgCollecting (List.length dates) start_year end_year)
       :: mid
       ++ [EvLog INFO (MsgComplete (count_present temperatures)
                         (count_present anomalies))])%list
    /\ (count_present temperatures <= List.length dates)%nat
    /\ (count_present anomalies <= List.length dates)%nat.
Proof.
  intros H.
  pose proof (collect_timeseries_data_Ok _ _ _ _ _ _ _ _ _ _ _ _ _ H)
    as (axis & Hg & Hp & Ht & Ha & _).
  assert (Hlt : List.length temperatures = List.length dates)
    by (rewrite Ht, fetched_length; symmetry; now apply rmap_length in Hp).
  assert (Hla : List.length anomalies = List.length dates)
    by (rewrite Ha, fetched_length; symmetry; now apply rmap_length in Hp).
  revert H. unfold collect_timeseries_data.
  unfold bind at 1, lift at 1. rewrite Hg.
  unfold bind at 1, lift at 1. rewrite Hp.
  unfold bind at 1, log at 1. unfold bind at 1.
  destruct (collect_loop _ _ _ _ _ _ _ _ _ _ _ _) as [[[ts an]|e] w1] eqn:EL;
    [|discriminate].
  apply collect_loop_extends in EL. cbn [trace emit] in EL.
  destruct EL as (mid & Hmid & _).
  unfold bind, log, ret, emit. intros [= <- <- <-]. cbn [trace].
  exists mid. rewrite Hmid, <- !app_assoc.
  apply rmap_length in Hp. rewrite Hp.
  split; [reflexivity|].
  split; [rewrite <- Hp, <- Hlt|rewrite <- Hp, <- Hla]; apply count_present_le.
Qed.

Lemma collect_timeseries_data_log_bracket_witness :
  exists mid,
    trace (snd (collect_timeseries_data sample_transport time_sleep_error
                  38.13 4.13 2000 2000 API_KEY 0.1 initial_world))
    = (trace initial_world
       ++ EvLog INFO (MsgCollecting (List.length (month_axis 2000 12)) 2000 2000)
       :: mid
       ++ [EvLog INFO (MsgComplete
                         (count_present (repeat (PyFloat 17.5) 12))
                         (count_present (repeat PyNone 12)))])%list
    /\ (count_present (repeat (PyFloat 17.5) 12)
        <= List.length (month_axis 2000 12))%nat
    /\ (count_present (repeat PyNone 12) <= List.length (month_axis 2000 12))%nat.
Proof.
  apply (collect_timeseries_data_log_bracket sample_transport time_sleep_error
           38.13 4.13 2000 2000 API_KEY 0.1 initial_world (month_axis 2000 12)
           (repeat (PyFloat 17.5) 12) (repeat PyNone 12)
           (snd (collect_timeseries_data sample_transport time_sleep_error
                   38.13 4.13 2000 2000 API_KEY 0.1 initial_world))).
  vm_compute. reflexivity.
Defined.

(** ** Chart renderer and entry point *)

Lemma present_dates_aligned dates : forall values,
  List.length dates = List.length values ->
  combine (present_dates dates values) (filter is_not_None values)
  = filter (fun p => is_not_None (snd p)) (combine dates values)
  /\ List.length (present_dates dates values)
     = List.length (filter is_not_None values).
Proof.
  unfold present_dates.
  induction dates as [|d ds IH]; intros [|v vs] Hl; try discriminate;
    [now split|].
  injection Hl as Hl. destruct (IH vs Hl) as [IH1 IH2].
  cbn [combine filter snd]. destruct (is_not_None v); cbn [map fst combine List.length].
  - rewrite IH1, IH2. now split.
  - now split.
Qed.

Section RenderFacts.

Variable float_str : float -> string.
Variables draw_error savefig_error show_error : chart -> option exn.

(** The renderer, stage by stage: an exception while the figure is drawn
    or saved leaves the world as it is; one raised by [plt.show] comes after
    the chart is written and logged. *)
Lemma create_graph_run dates temperatures anomalies lat lon output_file w :
  let c := chart_of float_str dates temperatures anomalies lat lon output_file in
  create_graph float_str draw_error savefig_error show_error dates temperatures
    anomalies lat lon output_file w
  = match draw_error c, savefig_error c, show_error c with
    | Some e, _, _ => (Raise e, w)
    | None, Some e, _ => (Raise e, w)
    | None, None, Some e =>
        (Raise e,
         mk_world (n_calls w)
           (trace w ++ [EvSavefig c; EvLog INFO (MsgSaved output_file)]))
    | None, None, None =>
        (Ok tt,
         mk_world (n_calls w)
           (trace w ++ [EvSavefig c; EvLog INFO (MsgSaved output_file); EvShow]))
    end.
Proof.
  intros c. unfold create_graph. fold (chart_of float_str dates temperatures
                                         anomalies lat lon output_file).
  fold c. destruct w as [n t].
  unfold bind, plt_call, log, emit; cbn [n_calls trace].
  destruct (draw_error c); [reflexivity|].
  rewrite app_nil_r.
  destruct (savefig_error c); [reflexivity|].
  destruct (show_error c); cbn [n_calls trace]; rewrite <- ?app_assoc;
    reflexivity.
Qed.

(** X16.  Given sequences of one length, each metric is filtered on its
    own, and the points of the chart are exactly the (date, value) pairs
    whose value is not [None], in the order of the dates.  When the plotting
    library raises nothing, the renderer writes exactly this one chart to
    the given file, logs it and shows it; when drawing or [plt.savefig]
    raises (an unsupported format, a path that cannot be written), the
    renderer raises the same exception and nothing is written or logged. *)
Theorem create_graph_points dates temperatures anomalies lat lon output_file w :
  List.length dates = List.length temperatures ->
  List.length dates = List.length anomalies ->
  exists c,
    chart_file c = output_file
    /\ combine (temp_dates c) (temp_values c)
       = filter (fun p => is_not_None (snd p)) (combine dates temperatures)
    /\ combine (anom_dates c) (anom_values c)
       = filter (fun p => is_not_None (snd p)) (combine dates anomalies)
    /\ List.length (temp_dates c) = count_present temperatures
    /\ List.length (anom_dates c) = count_present anomalies
    /\ (draw_error c = None -> savefig_error c = None -> show_error c = None ->
        create_graph float_str draw_error savefig_error show_error dates
          temperatures anomalies lat lon output_file w
        = (Ok tt,
           mk_world (n_calls w)
             (trace w ++ [EvSavefig c; EvLog INFO (MsgSaved output_file); EvShow])))
    /\ (forall e,
          draw_error c = Some e \/ (draw_error c = None /\ savefig_error c = Some e) ->
          create_graph float_str draw_error savefig_error show_error dates
            temperatures anomalies lat lon output_file w
          = (Raise e, w)).
Proof.
  intros Ht Ha.
  exists (chart_of float_str dates temperatures anomalies lat lon output_file).
  destruct (present_dates_aligned dates temperatures Ht) as [H1 H2].
  destruct (present_dates_aligned dates anomalies Ha) as [H3 H4].
  cbn [chart_of chart_file temp_dates temp_values anom_dates anom_values].
  do 5 (split; [assumption || reflexivity|]).
  split.
  - intros Hd Hs Hw. rewrite create_graph_run. cbv zeta.
    now rewrite Hd, Hs, Hw.
  - intros e [Hd|[Hd Hs]]; rewrite create_graph_run; cbv zeta.
    + now rewrite Hd.
    + now rewrite Hd, Hs.
Qed.

End RenderFacts.

Lemma create_graph_points_witness :
  exists c,
    chart_file c = "out.png"
    /\ combine (temp_dates c) (temp_values c)
       = filter (fun p => is_not_None (snd p))
           (combine [Datetime.mk 2000 1 1; Datetime.mk 2000 2 1; Datetime.mk 2000 3 1]
                    [PyFloat 17.5; PyNone; PyFloat 18.0])
    /\ combine (anom_dates c) (anom_values c)
       = filter (fun p => is_not_None (snd p))
           (combine [Datetime.mk 2000 1 1; Datetime.mk 2000 2 1; Datetime.mk 2000 3 1]
                    [PyNone; PyFloat 0.5; PyFloat 0.25])
    /\ List.length (temp_dates c) = count_present [PyFloat 17.5; PyNone; PyFloat 18.0]
    /\ List.length (anom_dates c) = count_present [PyNone; PyFloat 0.5; PyFloat 0.25]
    /\ (plt_silent c = None -> plt_silent c = None -> plt_silent c = None ->
        create_graph (fun _ => "x") plt_silent plt_silent plt_silent
          [Datetime.mk 2000 1 1; Datetime.mk 2000 2 1; Datetime.mk 2000 3 1]
          [PyFloat 17.5; PyNone; PyFloat 18.0] [PyNone; PyFloat 0.5; PyFloat 0.25]
          38.13 4.13 "out.png" initial_world
        = (Ok tt,
           mk_world (n_calls initial_world)
             (trace initial_world
              ++ [EvSavefig c; EvLog INFO (MsgSaved "out.png"); EvShow])))
    /\ (forall e,
          plt_silent c = Some e \/ (plt_silent c = None /\ plt_silent c = Some e) ->
          create_graph (fun _ => "x") plt_silent plt_silent plt_silent
            [Datetime.mk 2000 1 1; Datetime.mk 2000 2 1; Datetime.mk 2000 3 1]
            [PyFloat 17.5; PyNone; PyFloat 18.0] [PyNone; PyFloat 0.5; PyFloat 0.25]
            38.13 4.13 "out.png" initial_world
          = (Raise e, initial_world)).
Proof.
  apply (create_graph_points (fun _ => "x") plt_silent plt_silent plt_silent);
    reflexivity.
Defined.

Section MainFacts.

Variable transport : nat -> request -> result response.
Variable sleep_error : float -> option exn.
Variable float_str : float -> string.
Variables draw_error savefig_error show_error : chart -> option exn.

Let collect (a : args) : M (list datetime * list value * list value) :=
  collect_timeseries_data transport sleep_error (arg_lat a) (arg_lon a)
    (arg_start_year a) (arg_end_year a) (arg_api_key a) (arg_delay a).

Let render (a : args) (dates : list datetime) (temperatures anomalies : list value)
  : M unit :=
  create_graph float_str draw_error savefig_error show_error dates temperatures
    anomalies (arg_lat a) (arg_lon a) (arg_output a).

Let run : args -> M Z :=
  main transport sleep_error float_str draw_error savefig_error show_error.

Lemma collect_lengths_equal a w dates temperatures anomalies w1 :
  collect a w = (Ok (dates, temperatures, anomalies), w1) ->
  List.length dates = List.length temperatures
  /\ List.length dates = List.length anomalies.
Proof.
  intros H. apply collect_timeseries_data_Ok in H.
  destruct H as (axis & _ & Hp & -> & -> & _).
  rewrite !fetched_length. apply rmap_length in Hp. auto.
Qed.

(** What the [except] clauses make of an exception raised in world [w1]. *)
Lemma main_handlers_run e w1 :
  match main_handlers e with
  | Some h => h w1
  | None => (Raise e, w1)
  end
  = match exit_record e with
    | Some record => (Ok 1, emit record w1)
    | None => (Raise e, w1)
    end.
Proof.
  unfold main_handlers, exit_record.
  destruct (is_KeyboardInterrupt e); [reflexivity|].
  destruct (is_Exception e); reflexivity.
Qed.

Lemma main_after_failure a w e w1 :
  collect a w = (Raise e, w1) ->
  run a w = match exit_record e with
            | Some record => (Ok 1, emit record w1)
            | None => (Raise e, w1)
            end.
Proof.
  intros H. subst run collect. cbv beta in *.
  unfold main, try_except. unfold bind at 1. rewrite H.
  apply main_handlers_run.
Qed.

Lemma main_after_collect a w dates temperatures anomalies w1 :
  collect a w = (Ok (dates, temperatures, anomalies), w1) ->
  run a w = match render a dates temperatures anomalies w1 with
            | (Ok _, w2) => (Ok 0, emit (EvLog INFO MsgCompleted) w2)
            | (Raise e, w2) =>
                match exit_record e with
                | Some record => (Ok 1, emit record w2)
                | None => (Raise e, w2)
                end
            end.
Proof.
  intros H. subst run collect render. cbv beta in *.
  unfold main, try_except. unfold bind at 1. rewrite H. unfold bind at 1.
  destruct (create_graph _ _ _ _ _ _ _ _ _ _ w1) as [[[]|e] w2].
  - reflexivity.
  - apply main_handlers_run.
Qed.

(** X17.  The exit code tells whether the collection and the rendering
    both returned: 0 if they did, 1 if one of them raised an interrupt or
    an exception of a class in [Exception].  An exception of another class
    outside [Exception] (a [SystemExit]) is not caught and leaves the entry
    point. *)
Theorem main_exit_code a w :
  fst (run a w)
  = match fst ((series <- collect a ;;
                let '(dates, temperatures, anomalies) := series in
                render a dates temperatures anomalies) w) with
    | Ok _ => Ok 0
    | Raise e =>
        if is_KeyboardInterrupt e || is_Exception e then Ok 1 else Raise e
    end.
Proof.
  unfold bind at 1.
  destruct (collect a w) as [[[[dates temperatures] anomalies]|e] w1] eqn:E.
  - rewrite (main_after_collect _ _ _ _ _ _ E).
    destruct (render a dates temperatures anomalies w1) as [[[]|e] w2];
      [reflexivity|].
    cbn [fst]. unfold exit_record.
    destruct (is_KeyboardInterrupt e); [reflexivity|].
    destruct (is_Exception e); reflexivity.
  - rewrite (main_after_failure _ _ _ _ E). cbn [fst]. unfold exit_record.
    destruct (is_KeyboardInterrupt e); [reflexivity|].
    destruct (is_Exception e); reflexivity.
Qed.

(** X18.  A run whose collection raises writes no chart.  For an exception
    of a class in [Exception] the entry point returns 1 and the world it
    leaves is the one at the raise plus a single ERROR record carrying the
    exception; for an interrupt it returns 1 after a single INFO record;
    an exception of another class outside [Exception] leaves the entry
    point, with nothing logged. *)
Theorem main_failed_run a w e w1 :
  collect a w = (Raise e, w1) ->
  saved_charts (trace w1) = saved_charts (trace w)
  /\ (is_Exception e = true ->
      run a w
      = (Ok 1, mk_world (n_calls w1) (trace w1 ++ [EvLog ERROR (MsgError e)])))
  /\ (e = KeyboardInterrupt ->
      run a w
      = (Ok 1, mk_world (n_calls w1) (trace w1 ++ [EvLog INFO MsgInterrupted])))
  /\ (is_Exception e = false -> e <> KeyboardInterrupt -> run a w = (Raise e, w1)).
Proof.
  intros H. pose proof (main_after_failure _ _ _ _ H) as Hr.
  split; [|split; [|split]].
  - subst collect. cbv beta in H.
    apply collect_timeseries_data_extends in H. destruct H as (mid & -> & Hmid).
    rewrite saved_charts_app, Hmid. now rewrite app_nil_r.
  - intros He. rewrite Hr. unfold exit_record. rewrite He.
    now destruct e.
  - intros ->. rewrite Hr. reflexivity.
  - intros He Hk. rewrite Hr. unfold exit_record. rewrite He.
    destruct e; try reflexivity; try discriminate. now destruct Hk.
Qed.

(** X19.  A run whose collection returns plots, for each metric, the
    returned dates whose value is not [None], for the output file of the
    command line.  When the plotting library raises nothing, the run exits
    with 0 having written exactly this one chart, and its last record
    reports success.  When drawing or [plt.savefig] raises an exception of a
    class in [Exception] (an unsupported format of the output file, a path
    that cannot be written), the run exits with 1 and no chart is
    written. *)
Theorem main_successful_run a w dates temperatures anomalies w1 :
  collect a w = (Ok (dates, temperatures, anomalies), w1) ->
  exists c,
    chart_file c = arg_output a
    /\ combine (temp_dates c) (temp_values c)
       = filter (fun p => is_not_None (snd p)) (combine dates temperatures)
    /\ combine (anom_dates c) (anom_values c)
       = filter (fun p => is_not_None (snd p)) (combine dates anomalies)
    /\ (draw_error c = None -> savefig_error c = None -> show_error c = None ->
        exists w',
          run a w = (Ok 0, w')
          /\ saved_charts (trace w') = (saved_charts (trace w) ++ [c])%list
          /\ last (trace w') EvShow = EvLog INFO MsgCompleted)
    /\ (forall e,
          draw_error c = Some e \/ (draw_error c = None /\ savefig_error c = Some e) ->
          is_Exception e = true ->
          run a w
          = (Ok 1, mk_world (n_calls w1) (trace w1 ++ [EvLog ERROR (MsgError e)]))
          /\ saved_charts (trace w1 ++ [EvLog ERROR (MsgError e)])
             = saved_charts (trace w)).
Proof.
  intros H. destruct (collect_lengths_equal _ _ _ _ _ _ H) as [Ht Ha].
  pose proof (main_after_collect _ _ _ _ _ _ H) as Hr.
  subst render. cbv beta in Hr. rewrite create_graph_run in Hr. cbv zeta in Hr.
  set (c := chart_of float_str dates temperatures anomalies (arg_lat a)
              (arg_lon a) (arg_output a)) in Hr.
  subst collect. cbv beta in H.
  apply collect_timeseries_data_extends in H. destruct H as (mid & Hmid & Hc).
  exists c.
  split; [reflexivity|].
  split; [apply (present_dates_aligned dates temperatures Ht)|].
  split; [apply (present_dates_aligned dates anomalies Ha)|].
  split.
  - intros Hd Hs Hw. rewrite Hd, Hs, Hw in Hr.
    eexists. split; [exact Hr|].
    unfold emit; cbn [trace]. rewrite Hmid. split.
    + rewrite !saved_charts_app, Hc. cbn. now rewrite !app_nil_r.
    + now rewrite last_last.
  - intros e He Hx.
    assert (Hr' : run a w
                  = match exit_record e with
                    | Some record => (Ok 1, emit record w1)
                    | None => (Raise e, w1)
                    end).
    { destruct He as [Hd|[Hd Hs]]; [now rewrite Hd in Hr|].
      now rewrite Hd, Hs in Hr. }
    unfold exit_record in Hr'. rewrite Hx in Hr'.
    replace (is_KeyboardInterrupt e) with false in Hr' by now destruct e.
    split; [exact Hr'|].
    rewrite Hmid, !saved_charts_app, Hc. cbn. now rewrite !app_nil_r.
Qed.

End MainFacts.

Lemma main_failed_run_witness :
  saved_charts (trace initial_world) = saved_charts (trace initial_world)
  /\ (is_Exception (ValueError "year 0 is out of range") = true ->
      main sim_transport time_sleep_error (fun _ => "x") plt_silent plt_silent
        plt_silent args_year_zero initial_world
      = (Ok 1,
         mk_world (n_calls initial_world)
           (trace initial_world
            ++ [EvLog ERROR (MsgError (ValueError "year 0 is out of range"))])))
  /\ (ValueError "year 0 is out of range" = KeyboardInterrupt ->
      main sim_transport time_sleep_error (fun _ => "x") plt_silent plt_silent
        plt_silent args_year_zero initial_world
      = (Ok 1,
         mk_world (n_calls initial_world)
           (trace initial_world ++ [EvLog INFO MsgInterrupted])))
  /\ (is_Exception (ValueError "year 0 is out of range") = false ->
      ValueError "year 0 is out of range" <> KeyboardInterrupt ->
      main sim_transport time_sleep_error (fun _ => "x") plt_silent plt_silent
        plt_silent args_year_zero initial_world
      = (Raise (ValueError "year 0 is out of range"), initial_world)).
Proof.
  apply (main_failed_run sim_transport time_sleep_error (fun _ => "x")
           plt_silent plt_silent plt_silent args_year_zero initial_world
           (ValueError "year 0 is out of range") initial_world).
  reflexivity.
Defined.

Lemma main_successful_run_witness :
  exists c,
    chart_file c = arg_output args_2000_2001
    /\ combine (temp_dates c) (temp_values c)
       = filter (fun p => is_not_None (snd p))
           (combine (month_axis 2000 24)
              (map (fun k => PyFloat (sim_temperature (2 * k))) (seq 0 24)))
    /\ combine (anom_dates c) (anom_values c)
       = filter (fun p => is_not_None (snd p))
           (combine (month_axis 2000 24) (repeat (PyFloat 0.5) 24))
    /\ (plt_silent c = None -> plt_silent c = None -> plt_silent c = None ->
        exists w',
          main sim_transport time_sleep_error (fun _ => "x") plt_silent
            plt_silent plt_silent args_2000_2001 initial_world
          = (Ok 0, w')
          /\ saved_charts (trace w')
             = (saved_charts (trace initial_world) ++ [c])%list
          /\ last (trace w') EvShow = EvLog INFO MsgCompleted)
    /\ (forall e,
          plt_silent c = Some e \/ (plt_silent c = None /\ plt_silent c = Some e) ->
          is_Exception e = true ->
          let w1 := snd (collect_timeseries_data sim_transport time_sleep_error
                           (arg_lat args_2000_2001) (arg_lon args_2000_2001)
                           (arg_start_year args_2000_2001)
                           (arg_end_year args_2000_2001)
                           (arg_api_key args_2000_2001)
                           (arg_delay args_2000_2001) initial_world) in
          main sim_transport time_sleep_error (fun _ => "x") plt_silent
            plt_silent plt_silent args_2000_2001 initial_world
          = (Ok 1, mk_world (n_calls w1) (trace w1 ++ [EvLog ERROR (MsgError e)]))
          /\ saved_charts (trace w1 ++ [EvLog ERROR (MsgError e)])
             = saved_charts (trace initial_world)).
Proof.
  apply (main_successful_run sim_transport time_sleep_error (fun _ => "x")
           plt_silent plt_silent plt_silent
           args_2000_2001 initial_world (month_axis 2000 24)
           (map (fun k => PyFloat (sim_temperature (2 * k))) (seq 0 24))
           (repeat (PyFloat 0.5) 24)
           (snd (collect_timeseries_data sim_transport time_sleep_error
                   (arg_lat args_2000_2001) (arg_lon args_2000_2001)
                   (arg_start_year args_2000_2001) (arg_end_year args_2000_2001)
                   (arg_api_key args_2000_2001) (arg_delay args_2000_2001)
                   initial_world))).
  vm_compute. reflexivity.
Defined.

(** ** Progress reports *)

Lemma progress_records_app a b :
  progress_records (a ++ b) = (progress_records a ++ progress_records b)%list.
Proof. apply flat_map_app. Qed.

Lemma progress_records_outcome_logs o : progress_records (outcome_logs o) = [].
Proof. now destruct o. Qed.

Section ProgressFacts.

Variable transport : nat -> request -> result response.
Variable sleep_error : float -> option exn.
Variables lat lon : float.
Variable api_key : string.
Variable delay : float.

Lemma collect_loop_progress total : forall axis i temperatures anomalies w ts an w',
  collect_loop transport sleep_error lat lon api_key delay total i axis
    temperatures anomalies w = (Ok (ts, an), w') ->
  progress_records (trace w')
  = (progress_records (trace w)
     ++ map S (filter progress_due (seq i (List.length axis))))%list.
Proof.
  induction axis as [|date rest IH]; intros i temperatures anomalies w ts an w' H.
  - cbn in H. injection H as <- <- <-. cbn. now rewrite app_nil_r.
  - rewrite collect_loop_cons in H. cbv zeta in H.
    destruct (outcome_result _) in H; [|discriminate].
    destruct (sleep_error delay); [discriminate|].
    destruct (outcome_result _) in H; [|discriminate].
    apply IH in H. cbn [trace] in H. rewrite H.
    rewrite !progress_records_app. cbn [progress_records flat_map app].
    fold (progress_records
            (outcome_logs
               (fetch_outcome "mean" date
                  (transport (n_calls w) (point_request lat lon api_key "mean" date))))).
    fold (progress_records
            (outcome_logs
               (fetch_outcome "anomaly" date
                  (transport (S (n_calls w))
                     (point_request lat lon api_key "anomaly" date))))).
    rewrite !progress_records_outcome_logs, !app_nil_r.
    cbn [List.length seq filter].
    destruct (progress_due i).
    + rewrite progress_records_app. cbn [progress_records flat_map app map].
      rewrite <- app_assoc. cbn [app]. do 3 f_equal. lia.
    + reflexivity.
Qed.

End ProgressFacts.

Lemma progress_due_offset y j :
  (j < 12)%nat ->
  progress_due (12 * y + j) = ((j =? 11) || ((y =? 0) && (j =? 0)))%nat.
Proof.
  intros Hj. unfold progress_due.
  replace (12 * y + j + 1)%nat with (j + 1 + y * 12)%nat by lia.
  replace (12 * y + j)%nat with (j + y * 12)%nat by lia.
  rewrite Nat.Div0.mod_add.
  do 12 (destruct j as [|j]; [destruct y; reflexivity|]). lia.
Qed.

Lemma progress_due_year y :
  filter progress_due (seq (12 * y) 12)
  = ((if (y =? 0)%nat then [0%nat] else []) ++ [12 * y + 11])%nat%list.
Proof.
  replace (12 * y)%nat with (12 * y + 0)%nat at 1 by lia.
  rewrite <- (map_id (seq (12 * y + 0) 12)), (map_seq_offset (fun k => k)).
  rewrite filter_map_swap.
  rewrite (filter_ext_in _
             (fun j => ((j =? 11) || ((y =? 0) && (j =? 0)))%nat)).
  - destruct y; reflexivity.
  - intros j Hin. apply in_seq in Hin. apply progress_due_offset. lia.
Qed.

Lemma progress_due_years y :
  map S (filter progress_due (seq 0 (12 * y)))
  = match y with
    | O => []
    | S _ => 1%nat :: map (fun j => (12 * (j + 1))%nat) (seq 0 y)
    end.
Proof.
  induction y as [|y IH]; [reflexivity|].
  replace (12 * S y)%nat with (12 * y + 12)%nat by lia.
  rewrite seq_app, filter_app, map_app, IH. cbn [Nat.add].
  rewrite progress_due_year, seq_S, map_app. cbn [map Nat.add].
  destruct y as [|y'].
  - reflexivity.
  - cbn [Nat.eqb app map]. rewrite map_app. cbn [map].
    do 3 f_equal. lia.
Qed.

(** X20.  Progress is reported at the first sample and then at every
    twelfth: a returning collection over [years] whole years logs progress
    records for the samples 1, 12, 24, ..., [12 * years], and none for a
    reversed (empty) range. *)
Theorem collect_timeseries_data_progress transport sleep_error lat lon
    start_year end_year api_key delay w dates temperatures anomalies w' :
  collect_timeseries_data transport sleep_error lat lon start_year end_year
    api_key delay w
  = (Ok (dates, temperatures, anomalies), w') ->
  progress_records (trace w')
  = (progress_records (trace w)
     ++ match Z.to_nat (end_year - start_year + 1) with
        | O => []
        | S _ => 1%nat :: map (fun j => (12 * (j + 1))%nat)
                            (seq 0 (Z.to_nat (end_year - start_year + 1)))
        end)%list.
Proof.
  intros H.
  pose proof (collect_timeseries_data_Ok _ _ _ _ _ _ _ _ _ _ _ _ _ H)
    as (axis & Hg & Hp & _).
  pose proof (generate_monthly_dates_Ok_inv _ _ _ Hg) as (_ & Hax).
  assert (Hlen : List.length axis
                 = (12 * Z.to_nat (end_year - start_year + 1))%nat).
  { rewrite Hax, length_map, month_axis_length. lia. }
  revert H. unfold collect_timeseries_data.
  unfold bind at 1, lift at 1. rewrite Hg.
  unfold bind at 1, lift at 1. rewrite Hp.
  unfold bind at 1, log at 1. unfold bind at 1.
  destruct (collect_loop _ _ _ _ _ _ _ _ _ _ _ _) as [[[ts an]|e] w1] eqn:EL;
    [|discriminate].
  apply collect_loop_progress in EL. cbn [trace emit] in EL.
  unfold bind, log, ret, emit. intros [= _ _ <-]. cbn [trace].
  rewrite progress_records_app, EL, progress_records_app.
  cbn [progress_records flat_map app]. rewrite !app_nil_r.
  now rewrite Hlen, progress_due_years.
Qed.

Lemma collect_timeseries_data_progress_witness :
  progress_records
    (trace (snd (collect_timeseries_data sim_transport time_sleep_error
                   38.13 4.13 2000 2001 API_KEY 0.1 initial_world)))
  = (progress_records (trace initial_world)
     ++ match Z.to_nat (2001 - 2000 + 1) with
        | O => []
        | S _ => 1%nat :: map (fun j => (12 * (j + 1))%nat)
                            (seq 0 (Z.to_nat (2001 - 2000 + 1)))
        end)%list.
Proof.
  apply (collect_timeseries_data_progress sim_transport time_sleep_error
           38.13 4.13 2000 2001 API_KEY 0.1 initial_world (month_axis 2000 24)
           (map (fun k => PyFloat (sim_temperature (2 * k))) (seq 0 24))
           (repeat (PyFloat 0.5) 24)
           (snd (collect_timeseries_data sim_transport time_sleep_error
                   38.13 4.13 2000 2001 API_KEY 0.1 initial_world))).
  vm_compute. reflexivity.
Defined.

(** ** Interrupted collections *)

Section Interrupted.

Variable transport : nat -> request -> result response.
Variable sleep_error : float -> option exn.
Variables lat lon : float.
Variable api_key : string.
Variable delay : float.

(** The number of the transport call that is interrupted, and the
    exception it raises. *)
Variable k : nat.
Variable e : exn.

Hypothesis sleep_ok : sleep_error delay = None.
Hypothesis interrupt : forall r, transport k r = Raise e.
Hypothesis not_caught : is_Exception e = false.
Hypothesis before : forall n r, (n < k)%nat -> catchable (transport n r) = true.

Lemma interrupted_outcome data_type date r :
  outcome_result (fetch_outcome data_type date (transport k r)) = Raise e.
Proof.
  rewrite interrupt. unfold fetch_outcome, handled. rewrite not_caught.
  now destruct e.
Qed.

Lemma collect_loop_interrupted total : forall axis i temperatures anomalies w,
  (n_calls w <= k)%nat -> (k < n_calls w + 2 * List.length axis)%nat ->
  exists w',
    collect_loop transport sleep_error lat lon api_key delay total i axis
      temperatures anomalies w = (Raise e, w')
    /\ n_calls w' = S k.
Proof.
  induction axis as [|date rest IH]; intros i temperatures anomalies w Hlo Hhi;
    [cbn in Hhi; lia|].
  rewrite collect_loop_cons. cbv zeta.
  destruct (Nat.eq_dec k (n_calls w)) as [<-|Hk0].
  { rewrite interrupted_outcome. eexists. split; reflexivity. }
  rewrite catchable_result by (apply before; lia). rewrite sleep_ok.
  destruct (Nat.eq_dec k (S (n_calls w))) as [Hk1|Hk1].
  { rewrite <- Hk1. rewrite interrupted_outcome. eexists. split; reflexivity. }
  rewrite catchable_result by (apply before; lia).
  apply IH; cbn [n_calls List.length] in *; lia.
Qed.

End Interrupted.

(** X21.  The collector does not catch what the fetcher lets through: if
    one of the transport calls of a collection (over an axis that starts in
    the year 1000 or later, so that its strings parse) raises an exception
    from outside [Exception], the calls before it being answered and the
    delay accepted, the collector raises that exception right there, having
    made exactly the calls up to the interrupted one, and returns
    nothing. *)
Theorem collect_timeseries_data_interrupted transport sleep_error lat lon
    start_year end_year api_key delay w axis k e :
  1000 <= start_year ->
  generate_monthly_dates start_year end_year = Ok axis ->
  sleep_error delay = None ->
  (n_calls w <= k)%nat -> (k < n_calls w + 2 * List.length axis)%nat ->
  (forall r, transport k r = Raise e) ->
  is_Exception e = false ->
  (forall n r, (n < k)%nat -> catchable (transport n r) = true) ->
  exists w',
    collect_timeseries_data transport sleep_error lat lon start_year end_year
      api_key delay w
    = (Raise e, w')
    /\ n_calls w' = S k.
Proof.
  intros Hy Hg Hs Hlo Hhi Hi He Hb.
  unfold collect_timeseries_data. rewrite Hg.
  unfold bind at 1, lift at 1. unfold bind at 1, lift at 1.
  destruct (generate_monthly_dates_parses_back _ _ _ Hg (or_introl Hy))
    as (ds & _ & ->).
  unfold bind at 1, log at 1. unfold bind at 1.
  match goal with
  | |- context [collect_loop _ _ _ _ _ _ ?total ?i ?ax ?t ?a ?w0] =>
      destruct (collect_loop_interrupted transport sleep_error lat lon api_key
                  delay k e Hs Hi He Hb total ax i t a w0) as (w' & -> & Hn)
  end; cbn [n_calls emit]; try assumption.
  exists w'. now split.
Qed.

Lemma collect_timeseries_data_interrupted_witness :
  exists w',
    collect_timeseries_data
      (fun n r => if (n =? 5)%nat then Raise KeyboardInterrupt
                  else failing_transport n r)
      time_sleep_error 38.13 4.13 2000 2000 API_KEY 0.1 initial_world
    = (Raise KeyboardInterrupt, w')
    /\ n_calls w' = 6%nat.
Proof.
  apply (collect_timeseries_data_interrupted
           (fun n r => if (n =? 5)%nat then Raise KeyboardInterrupt
                       else failing_transport n r)
           time_sleep_error 38.13 4.13 2000 2000 API_KEY 0.1 initial_world
           (map strftime (month_axis 2000 12)) 5 KeyboardInterrupt).
  - lia.
  - reflexivity.
  - reflexivity.
  - cbn. lia.
  - cbn. lia.
  - reflexivity.
  - reflexivity.
  - intros n r Hn. destruct (n =? 5)%nat eqn:E; [|reflexivity].
    apply Nat.eqb_eq in E. lia.
Defined.

(** ** Years before 1000 *)

(** X22.  A collection over a non-empty range that starts before the year
    1000 never reaches the transport.  The generator writes such a year
    without padding (the axis of the year 1 starts with [1-01-01]), so the
    first string of the axis has fewer than ten characters; the collector's
    own parse of that string raises [ValueError], and the collector raises
    it with nothing called, paused or logged. *)
Theorem collect_timeseries_data_short_year transport sleep_error lat lon
    start_year end_year api_key delay w :
  1 <= start_year -> start_year <= 999 -> start_year <= end_year ->
  end_year <= 9998 ->
  exists date rest msg,
    generate_monthly_dates start_year end_year = Ok (date :: rest)
    /\ date = (decimal start_year ++ "-01-01")%string
    /\ (String.length date < 10)%nat
    /\ collect_timeseries_data transport sleep_error lat lon start_year end_year
         api_key delay w
       = (Raise (ValueError msg), w).
Proof.
  intros Hs Hk Hse He.
  pose proof (generate_monthly_dates_closed start_year end_year Hs Hse He) as Hg.
  replace (Z.to_nat (12 * (end_year - start_year + 1)))
    with (S (Z.to_nat (12 * (end_year - start_year + 1)) - 1)) in Hg by lia.
  unfold month_axis in Hg. cbn [seq map] in Hg.
  assert (Hd : strftime (nth_month start_year 0)
               = (decimal start_year ++ "-01-01")%string).
  { unfold strftime, nth_month; cbn [year month day].
    change (Z.of_nat 0 / 12) with 0. now rewrite Z.add_0_r. }
  rewrite Hd in Hg.
  destruct (generate_monthly_dates_unparsed _ _ _ _ Hg Hk) as [msg Hm].
  do 2 eexists. exists msg. split; [exact Hg|]. split; [reflexivity|]. split.
  - rewrite string_length_append.
    pose proof (decimal_short start_year ltac:(lia)). cbn [String.length]. lia.
  - unfold collect_timeseries_data. rewrite Hg.
    unfold bind at 1, lift at 1. unfold bind at 1, lift at 1.
    now rewrite Hm.
Qed.

Lemma collect_timeseries_data_short_year_witness :
  (1 <= 1 /\ 1 <= 999 /\ 1 <= 1 /\ 1 <= 9998)
  /\ exists date rest msg,
       generate_monthly_dates 1 1 = Ok (date :: rest)
       /\ date = (decimal 1 ++ "-01-01")%string
       /\ (String.length date < 10)%nat
       /\ collect_timeseries_data sim_transport time_sleep_error 38.13 4.13 1 1
            API_KEY 0.1 initial_world
          = (Raise (ValueError msg), initial_world).
Proof.
  split; [lia|].
  apply (collect_timeseries_data_short_year sim_transport time_sleep_error
           38.13 4.13 1 1 API_KEY 0.1 initial_world); lia.
Defined.
